(** * NBA stats pipeline: a shallow embedding of [nba_stats.py] and
      [lambda_function.py], and the properties of its specification.

    The pipeline is one class, [NBAStatsPipeline], with four methods
    ([convert_floats_to_decimals], [setup_dynamodb_table],
    [fetch_player_stats], [store_team_stats]) and two entry points,
    [lambda_handler] and [main].  Python values are an inductive type; the methods that
    talk to the outside (DynamoDB, HTTP, the clock, the logger) run in a
    state-and-exception monad over an explicit [world]; what the outside
    answers is read from an environment record. *)

From Stdlib Require Import ZArith List String Ascii Bool Lia PrimFloat.
From Stdlib Require Import DecimalString.
Import ListNotations.
Set Warnings "-register-all,-inexact-float".
Local Open Scope string_scope.
Local Open Scope Z_scope.

(** ** Python values *)

(** Keys of a [dict]: the hashable scalars. *)
Inductive pykey : Type :=
| KNone
| KBool (b : bool)
| KInt (n : Z)
| KFloat (f : float)
| KStr (s : string).

(** The values the pipeline handles.  [PFloat] is Python's [float] (binary64),
    [PDecimal s] is [decimal.Decimal(s)], the decimal built from the string
    [s]; [PDict] lists the items of a [dict] in iteration order (its keys are
    pairwise distinct); [PTuple] is an immutable sequence, which is not a
    [list]. *)
Inductive pyval : Type :=
| PNone
| PBool (b : bool)
| PInt (n : Z)
| PFloat (f : float)
| PStr (s : string)
| PDecimal (s : string)
| PList (l : list pyval)
| PTuple (l : list pyval)
| PDict (d : list (pykey * pyval)).

Definition pyval_of_key (k : pykey) : pyval :=
  match k with
  | KNone => PNone
  | KBool b => PBool b
  | KInt n => PInt n
  | KFloat f => PFloat f
  | KStr s => PStr s
  end.

(** Induction over values that reaches the elements of lists and tuples and the
    values of dicts. *)
Section pyval_induction.
Variable P : pyval -> Prop.
Hypothesis HNone : P PNone.
Hypothesis HBool : forall b, P (PBool b).
Hypothesis HInt : forall n, P (PInt n).
Hypothesis HFloat : forall f, P (PFloat f).
Hypothesis HStr : forall s, P (PStr s).
Hypothesis HDecimal : forall s, P (PDecimal s).
Hypothesis HList : forall l, Forall P l -> P (PList l).
Hypothesis HTuple : forall l, Forall P l -> P (PTuple l).
Hypothesis HDict : forall d, Forall (fun kv => P (snd kv)) d -> P (PDict d).

Fixpoint pyval_nested_ind (v : pyval) : P v :=
  match v with
  | PNone => HNone
  | PBool b => HBool b
  | PInt n => HInt n
  | PFloat f => HFloat f
  | PStr s => HStr s
  | PDecimal s => HDecimal s
  | PList l =>
      HList l ((fix go (l : list pyval) : Forall P l :=
                  match l with
                  | [] => Forall_nil P
                  | x :: r => Forall_cons x (pyval_nested_ind x) (go r)
                  end) l)
  | PTuple l =>
      HTuple l ((fix go (l : list pyval) : Forall P l :=
                   match l with
                   | [] => Forall_nil P
                   | x :: r => Forall_cons x (pyval_nested_ind x) (go r)
                   end) l)
  | PDict d =>
      HDict d ((fix go (d : list (pykey * pyval))
                  : Forall (fun kv => P (snd kv)) d :=
                  match d with
                  | [] => Forall_nil _
                  | (k, x) :: r =>
                      Forall_cons (k, x) (pyval_nested_ind x) (go r)
                  end) d)
  end.
End pyval_induction.

(** ** The transform: [convert_floats_to_decimals] *)

Section Transform.
(** Python's built-in [str] on a [float] (the shortest string that reads
    back as the same float); it is not code of this repository. *)
Variable float_str : float -> string.

(** [isinstance(item, float)] first, then [dict], then [list]; anything
    else is returned as it is.  The dict comprehension keeps each key and
    converts each value; the list comprehension converts each element. *)
Fixpoint convert_floats_to_decimals (item : pyval) : pyval :=
  match item with
  | PFloat f => PDecimal (float_str f)
  | PDict d =>
      PDict (map (fun kv : pykey * pyval =>
                    let (k, v) := kv in (k, convert_floats_to_decimals v)) d)
  | PList l => PList (map convert_floats_to_decimals l)
  | _ => item
  end.
End Transform.

(** ** What the claims about the transform speak of *)

(** A float anywhere in a value: the value itself, an element of a list or of
    a tuple, a key or a value of a dict, at any depth. *)
Definition key_is_float (k : pykey) : bool :=
  match k with KFloat _ => true | _ => false end.

Fixpoint has_float (v : pyval) : bool :=
  match v with
  | PFloat _ => true
  | PList l => existsb has_float l
  | PTuple l => existsb has_float l
  | PDict d =>
      existsb (fun kv : pykey * pyval =>
                 let (k, x) := kv in key_is_float k || has_float x) d
  | _ => false
  end.

(** The positions the transform visits: the value itself, the elements of a
    list and the values of a dict.  [child i v] is the [i]-th of them, and
    [at_path p v] follows a path of such steps. *)
Definition child (i : nat) (v : pyval) : option pyval :=
  match v with
  | PList l => nth_error l i
  | PDict d => option_map snd (nth_error d i)
  | _ => None
  end.

Fixpoint at_path (p : list nat) (v : pyval) : option pyval :=
  match p with
  | [] => Some v
  | i :: q => match child i v with
              | Some x => at_path q x
              | None => None
              end
  end.

(** The keys of a dict, in order, at a position. *)
Definition keys_of (v : pyval) : list pykey :=
  match v with PDict d => map fst d | _ => [] end.

(** The number of elements of a list or items of a dict. *)
Definition width (v : pyval) : nat :=
  match v with
  | PList l => List.length l
  | PDict d => List.length d
  | _ => 0%nat
  end.

Definition is_float (v : pyval) : bool :=
  match v with PFloat _ => true | _ => false end.
Definition is_dict (v : pyval) : bool :=
  match v with PDict _ => true | _ => false end.
Definition is_list (v : pyval) : bool :=
  match v with PList _ => true | _ => false end.




(** ** Exceptions, results and Python's built-ins on values *)

(** The exceptions ([Exception] and its subclasses) the pipeline tells apart:
    the [requests.exceptions.RequestException] family (with the status code
    of [e.response] when there is a response), botocore's
    [ResourceInUseException], and every other exception; [kind] is
    [type(e).__name__] and [msg] is [str(e)]. *)
Inductive exn : Type :=
| RequestException (kind msg : string) (status : option Z)
| ResourceInUseException (msg : string)
| OtherException (kind msg : string).

Definition exn_str (e : exn) : string :=
  match e with
  | RequestException _ m _ => m
  | ResourceInUseException m => m
  | OtherException _ m => m
  end.

Definition exn_type_name (e : exn) : string :=
  match e with
  | RequestException k _ _ => k
  | ResourceInUseException _ => "ResourceInUseException"
  | OtherException k _ => k
  end.

Definition is_RequestException (e : exn) : bool :=
  match e with RequestException _ _ _ => true | _ => false end.

Definition is_ResourceInUseException (e : exn) : bool :=
  match e with ResourceInUseException _ => true | _ => false end.

(** [getattr(e.response, 'status_code', None)] *)
Definition response_status (e : exn) : pyval :=
  match e with
  | RequestException _ _ (Some c) => PInt c
  | _ => PNone
  end.

Inductive result (A : Type) : Type :=
| Ret (a : A)
| Raise (e : exn).
Arguments Ret {A} a.
Arguments Raise {A} e.

Definition type_name (v : pyval) : string :=
  match v with
  | PNone => "NoneType"
  | PBool _ => "bool"
  | PInt _ => "int"
  | PFloat _ => "float"
  | PStr _ => "str"
  | PDecimal _ => "decimal.Decimal"
  | PList _ => "list"
  | PTuple _ => "tuple"
  | PDict _ => "dict"
  end.

Definition TypeError (msg : string) : exn := OtherException "TypeError" msg.
Definition KeyError (key : string) : exn :=
  OtherException "KeyError" ("'" ++ key ++ "'").

(** [len(v)] *)
Definition py_len (v : pyval) : result Z :=
  match v with
  | PStr s => Ret (Z.of_nat (String.length s))
  | PList l => Ret (Z.of_nat (List.length l))
  | PTuple l => Ret (Z.of_nat (List.length l))
  | PDict d => Ret (Z.of_nat (List.length d))
  | _ => Raise (TypeError ("object of type '" ++ type_name v ++ "' has no len()"))
  end.

Fixpoint chars_of (s : string) : list pyval :=
  match s with
  | EmptyString => []
  | String c r => PStr (String c EmptyString) :: chars_of r
  end.

(** What [for x in v] runs over: the elements of a list or tuple, the keys of
    a dict, the characters of a string. *)
Definition py_iter (v : pyval) : result (list pyval) :=
  match v with
  | PStr s => Ret (chars_of s)
  | PList l => Ret l
  | PTuple l => Ret l
  | PDict d => Ret (map (fun kv : pykey * pyval => pyval_of_key (fst kv)) d)
  | _ => Raise (TypeError ("'" ++ type_name v ++ "' object is not iterable"))
  end.

Definition key_is (name : string) (k : pykey) : bool :=
  match k with KStr s => String.eqb s name | _ => false end.

Fixpoint dict_get (d : list (pykey * pyval)) (name : string) : option pyval :=
  match d with
  | [] => None
  | (k, v) :: r => if key_is name k then Some v else dict_get r name
  end.

(** [v[name]] for a string [name] *)
Definition py_getitem (v : pyval) (name : string) : result pyval :=
  match v with
  | PDict d =>
      match dict_get d name with
      | Some x => Ret x
      | None => Raise (KeyError name)
      end
  | PStr _ => Raise (TypeError "string indices must be integers, not 'str'")
  | PList _ =>
      Raise (TypeError "list indices must be integers or slices, not str")
  | PTuple _ =>
      Raise (TypeError "tuple indices must be integers or slices, not str")
  | _ => Raise (TypeError ("'" ++ type_name v ++ "' object is not subscriptable"))
  end.

(** Whether the decimal written [s] is not zero: a digit other than 0 before
    the exponent, or an infinity or NaN. *)
Fixpoint decimal_nonzero (s : string) : bool :=
  match s with
  | EmptyString => false
  | String c r =>
      if (Ascii.eqb c "e" || Ascii.eqb c "E")%bool then false
      else if ((49 <=? nat_of_ascii c)%nat && (nat_of_ascii c <=? 57)%nat)%bool
      then true
      else if (Ascii.eqb c "n" || Ascii.eqb c "N")%bool then true
      else decimal_nonzero r
  end.

(** [bool(v)], the test of [if v:] *)
Definition truthy (v : pyval) : bool :=
  match v with
  | PNone => false
  | PBool b => b
  | PInt n => negb (n =? 0)
  | PFloat f => negb (PrimFloat.eqb f PrimFloat.zero)
  | PStr s => match s with EmptyString => false | _ => true end
  | PDecimal s => decimal_nonzero s
  | PList l => match l with [] => false | _ => true end
  | PTuple l => match l with [] => false | _ => true end
  | PDict d => match d with [] => false | _ => true end
  end.

(** ** Strings: [json.dumps] of a string, and [in] *)

Definition dquote : ascii := "034"%char.
Definition backslash : ascii := "092"%char.

Definition hex_digit (n : nat) : ascii :=
  match get n "0123456789abcdef" with
  | Some c => c
  | None => "0"%char
  end.

(** One character as [json.dumps] writes it (with [ensure_ascii], a string
    being a sequence of code points below 256): the two-character escapes,
    [\u00XX] for the other characters outside space .. tilde. *)
Definition json_escape (c : ascii) : string :=
  let n := nat_of_ascii c in
  if Ascii.eqb c dquote then String backslash (String dquote EmptyString)
  else if Ascii.eqb c backslash then String backslash (String backslash EmptyString)
  else if (n =? 8)%nat then String backslash "b"
  else if (n =? 12)%nat then String backslash "f"
  else if (n =? 10)%nat then String backslash "n"
  else if (n =? 13)%nat then String backslash "r"
  else if (n =? 9)%nat then String backslash "t"
  else if ((32 <=? n) && (n <=? 126))%nat then String c EmptyString
  else String backslash
         (String "u" (String "0" (String "0"
           (String (hex_digit (n / 16)) (String (hex_digit (n mod 16)) EmptyString))))).

Fixpoint json_escape_all (s : string) : string :=
  match s with
  | EmptyString => EmptyString
  | String c r => json_escape c ++ json_escape_all r
  end.

Definition json_dumps (s : string) : string :=
  String dquote (json_escape_all s ++ String dquote EmptyString).

(** [needle in hay] *)
Fixpoint contains (needle hay : string) : bool :=
  if prefix needle hay then true
  else match hay with
       | EmptyString => false
       | String _ r => contains needle r
       end.

Definition Z_str (n : Z) : string := NilZero.string_of_int (Z.to_int n).

(** An [Optional[str]] inside an f-string. *)
Definition opt_str (o : option string) : string :=
  match o with Some s => s | None => "None" end.

Definition opt_val (o : option string) : pyval :=
  match o with Some s => PStr s | None => PNone end.

(** ** The world the pipeline runs in *)

Inductive log_level : Type := INFO | ERROR.

Record log_record : Type := {
  level : log_level;
  message : string;
  extra : list (string * pyval)
}.

(** What the pipeline changes: the tables of the store, the items handed to
    [batch.put_item] (oldest first), the records handed to the logger (oldest
    first) and the number of times the clock was read. *)
Record world : Type := {
  tables : list string;
  submitted : list pyval;
  log : list log_record;
  ticks : nat
}.

Record http_response : Type := {
  status_code : Z;
  reason : string;
  json_body : result pyval        (* what [response.json()] gives *)
}.

(** What the outside answers: the environment variables, the clock, the
    failures of CloudWatch, of boto3 and of the store, and the answer of the
    remote API to a GET of a URL with the subscription key. *)
Record env : Type := {
  SPORTDATA_API_KEY : option string;
  DYNAMODB_TABLE_NAME : option string;
  isoformat : nat -> string;       (* [isoformat()] of the n-th clock reading *)
  cloudwatch_fault : option exn;
  resource_fault : option exn;     (* [boto3.resource('dynamodb')] *)
  create_fault : option exn;       (* permissions, schema, network *)
  waiter_fault : option exn;
  requests_get : string -> option string -> result http_response;
  put_fault : list pyval -> pyval -> option exn;
  exit_fault : list pyval -> option exn
}.

(** State and exceptions: a raised exception keeps the changes made to the
    world before it. *)
Definition M (A : Type) : Type := world -> result A * world.

Definition ret {A : Type} (a : A) : M A := fun w => (Ret a, w).

Definition raise {A : Type} (e : exn) : M A := fun w => (Raise e, w).

Definition bind {A B : Type} (m : M A) (k : A -> M B) : M B :=
  fun w =>
    match m w with
    | (Ret a, w') => k a w'
    | (Raise e, w') => (Raise e, w')
    end.

Definition lift {A : Type} (r : result A) : M A := fun w => (r, w).

(** [try: body / except ... as e: handler e]; a handler that does not match
    raises [e] again. *)
Definition try_except {A : Type} (body : M A) (handler : exn -> M A) : M A :=
  fun w =>
    match body w with
    | (Ret a, w') => (Ret a, w')
    | (Raise e, w') => handler e w'
    end.

Declare Scope py_scope.
Delimit Scope py_scope with py.
Notation "x <- m ;; k" := (bind m (fun x => k))
  (at level 61, m at next level, right associativity) : py_scope.
Notation "m ;; k" := (bind m (fun _ => k))
  (at level 61, right associativity) : py_scope.
Local Open Scope py_scope.

Fixpoint for_each {A : Type} (l : list A) (body : A -> M unit) : M unit :=
  match l with
  | [] => ret tt
  | x :: r => body x ;; for_each r body
  end.

Definition add_log (r : log_record) (w : world) : world :=
  {| tables := tables w; submitted := submitted w; log := log w ++ [r];
     ticks := ticks w |}.

Definition emit (lv : log_level) (msg : string) (ex : list (string * pyval))
  : M unit :=
  fun w => (Ret tt, add_log {| level := lv; message := msg; extra := ex |} w).

Definition logger_info := emit INFO.
Definition logger_error := emit ERROR.

(** [datetime.now()]: the number of the reading. *)
Definition datetime_now : M nat :=
  fun w =>
    (Ret (ticks w),
     {| tables := tables w; submitted := submitted w; log := log w;
        ticks := S (ticks w) |}).

Record table : Type := { TableName : string }.

Record response : Type := { statusCode : Z; body : string }.

Record NBAStatsPipeline : Type := {
  api_key : option string;
  base_url : string;
  table_name : option string
}.

(** ** The pipeline *)

Section Pipeline.
(** Python's built-in [str] (not code of this repository) and the
    environment of the run. *)
Variable py_str : pyval -> string.
Variable E : env.

Definition str_of_float (f : float) : string := py_str (PFloat f).

(** A value inside an f-string: a string is itself, anything else goes
    through [str]. *)
Definition format_value (v : pyval) : string :=
  match v with PStr s => s | _ => py_str v end.

(** *** The collaborators *)

Definition boto3_resource : M unit :=
  match resource_fault E with
  | Some e => raise e
  | None => ret tt
  end.

(** [dynamodb.create_table(TableName=name, ...)]: a missing name is
    refused before any request, a table that is there already is reported
    by [ResourceInUseException]. *)
Definition create_table (name : option string) : M table :=
  match name with
  | None =>
      raise (OtherException "ParamValidationError"
               "Parameter validation failed: Invalid type for parameter TableName")
  | Some n =>
      match create_fault E with
      | Some e => raise e
      | None =>
          fun w =>
            if existsb (String.eqb n) (tables w)
            then (Raise (ResourceInUseException ("Table already exists: " ++ n)), w)
            else (Ret {| TableName := n |},
                  {| tables := tables w ++ [n]; submitted := submitted w;
                     log := log w; ticks := ticks w |})
      end
  end.

Definition wait_table_exists (name : option string) : M unit :=
  match waiter_fault E with
  | Some e => raise e
  | None => ret tt
  end.

(** [dynamodb.Table(name)]: a handle, made without any request. *)
Definition dynamodb_Table (name : option string) : M table :=
  match name with
  | None => raise (OtherException "ValueError" "Required parameter name not set")
  | Some n => ret {| TableName := n |}
  end.

(** [response.raise_for_status()]: [HTTPError] for a 4xx or 5xx status. *)
Definition raise_for_status (url : string) (r : http_response) : M unit :=
  let c := status_code r in
  if (400 <=? c) && (c <? 600) then
    raise (RequestException "HTTPError"
             (Z_str c ++ (if c <? 500 then " Client Error: " else " Server Error: ")
                ++ reason r ++ " for url: " ++ url)
             (Some c))
  else ret tt.

(** [batch.put_item(Item=item)]: the item joins the batch unless the store
    fails at this point. *)
Definition batch_put_item (item : pyval) : M unit :=
  fun w =>
    match put_fault E (submitted w) item with
    | Some e => (Raise e, w)
    | None =>
        (Ret tt,
         {| tables := tables w; submitted := submitted w ++ [item];
            log := log w; ticks := ticks w |})
    end.

(** [with table.batch_writer() as batch: body]: on the way out the writer
    sends what it still holds, if it was given anything. *)
Definition with_batch_writer (t : table) (body : M unit) : M unit :=
  fun w =>
    let (r, w') := body w in
    if (List.length (submitted w') =? List.length (submitted w))%nat
    then (r, w')
    else match exit_fault E (submitted w') with
         | Some e => (Raise e, w')
         | None => (r, w')
         end.

(** *** [setup_logger] and [NBAStatsPipeline.__init__] *)

Definition setup_logger : M unit :=
  try_except
    (_ <- datetime_now ;;
     match cloudwatch_fault E with
     | Some e => raise e
     | None => ret tt
     end)
    (fun e =>
       logger_error ("Failed to set up CloudWatch logging: " ++ exn_str e) []).

Definition new_NBAStatsPipeline : M NBAStatsPipeline :=
  setup_logger ;;
  boto3_resource ;;
  let self := {| api_key := SPORTDATA_API_KEY E;
                 base_url := "https://api.sportsdata.io/v3/nba";
                 table_name := DYNAMODB_TABLE_NAME E |} in
  logger_info "Initialized NBA Stats Pipeline"
    [("service", PStr "nba-stats"); ("base_url", PStr (base_url self));
     ("table_name", opt_val (table_name self))] ;;
  ret self.

(** *** [setup_dynamodb_table] *)

(** The inner [try] block: create the table, wait until it is there. *)
Definition create_table_and_wait (self : NBAStatsPipeline) : M table :=
  t <- create_table (table_name self) ;;
  wait_table_exists (table_name self) ;;
  logger_info ("Created table " ++ opt_str (table_name self)) [] ;;
  ret t.

Definition setup_dynamodb_table (self : NBAStatsPipeline) : M table :=
  try_except
    (logger_info ("Setting up DynamoDB table: " ++ opt_str (table_name self)) [] ;;
     try_except
       (create_table_and_wait self)
       (fun e =>
          if is_ResourceInUseException e then
            logger_info ("Table " ++ opt_str (table_name self) ++ " already exists") [] ;;
            dynamodb_Table (table_name self)
          else raise e))
    (fun e =>
       logger_error "Failed to set up DynamoDB table"
         [("error", PStr (exn_str e)); ("table_name", opt_val (table_name self))] ;;
       raise e).

(** *** [fetch_player_stats] *)

Definition fetch_player_stats (self : NBAStatsPipeline) (season : string)
  : M pyval :=
  let url := base_url self ++ "/scores/json/Standings/" ++ season in
  try_except
    (logger_info "Fetching data from API"
       [("url", PStr url); ("season", PStr season)] ;;
     response <- lift (requests_get E url (api_key self)) ;;
     raise_for_status url response ;;
     data <- lift (json_body response) ;;
     n <- lift (py_len data) ;;
     logger_info "Successfully fetched data"
       [("teams_count", PInt n); ("season", PStr season)] ;;
     ret data)
    (fun e =>
       if is_RequestException e then
         logger_error "API request failed"
           [("error", PStr (exn_str e)); ("url", PStr url);
            ("status_code", response_status e)] ;;
         ret PNone
       else
         logger_error "Unexpected error occurred"
           [("error", PStr (exn_str e)); ("error_type", PStr (exn_type_name e))] ;;
         ret PNone).

(** *** [store_team_stats] *)

Definition stats_fields : list string :=
  ["Wins"; "Losses"; "Percentage"; "PointsPerGameFor"; "PointsPerGameAgainst";
   "HomeWins"; "HomeLosses"; "AwayWins"; "AwayLosses"; "LastTenWins";
   "LastTenLosses"].

(** [{name: team[name], ...}] for the names given, read left to right. *)
Fixpoint read_fields (names : list string) (team : pyval)
  : M (list (pykey * pyval)) :=
  match names with
  | [] => ret []
  | name :: r =>
      v <- lift (py_getitem team name) ;;
      rest <- read_fields r team ;;
      ret ((KStr name, v) :: rest)
  end.

Definition team_item (timestamp : string) (team : pyval) : M pyval :=
  TeamID <- lift (py_getitem team "TeamID") ;;
  Key <- lift (py_getitem team "Key") ;;
  City <- lift (py_getitem team "City") ;;
  Name <- lift (py_getitem team "Name") ;;
  Conference <- lift (py_getitem team "Conference") ;;
  Division <- lift (py_getitem team "Division") ;;
  stats <- read_fields stats_fields team ;;
  now <- datetime_now ;;
  ret (PDict
         [(KStr "TeamID", TeamID);
          (KStr "Timestamp", PStr timestamp);
          (KStr "TeamKey", Key);
          (KStr "TeamName", PStr (format_value City ++ " " ++ format_value Name));
          (KStr "Conference", Conference);
          (KStr "Division", Division);
          (KStr "Stats", convert_floats_to_decimals str_of_float (PDict stats));
          (KStr "LastUpdated", PStr (isoformat E now))]).

(** The body of the [for] loop. *)
Definition put_team (timestamp : string) (team : pyval) : M unit :=
  item <- team_item timestamp team ;;
  name <- lift (py_getitem item "TeamName") ;;
  logger_info ("Storing data for team: " ++ format_value name) [] ;;
  batch_put_item item.

Definition store_team_stats (self : NBAStatsPipeline) (stats_data : pyval)
  : M unit :=
  try_except
    (t <- dynamodb_Table (table_name self) ;;
     now <- datetime_now ;;
     let timestamp := isoformat E now in
     logger_info "Starting batch write to DynamoDB" [] ;;
     with_batch_writer t
       (teams <- lift (py_iter stats_data) ;;
        for_each teams (put_team timestamp)) ;;
     n <- lift (py_len stats_data) ;;
     logger_info "Successfully stored team stats" [("teams_count", PInt n)])
    (fun e =>
       logger_error "Failed to store team stats"
         [("error", PStr (exn_str e)); ("error_type", PStr (exn_type_name e))] ;;
       raise e).

(** *** [lambda_handler] *)

Definition lambda_handler (event context : pyval) : M response :=
  try_except
    (pipeline <- new_NBAStatsPipeline ;;
     setup_dynamodb_table pipeline ;;
     stats <- fetch_player_stats pipeline "2024" ;;
     if truthy stats then
       store_team_stats pipeline stats ;;
       ret {| statusCode := 200;
              body := json_dumps "Successfully updated NBA stats" |}
     else
       ret {| statusCode := 500;
              body := json_dumps "Failed to fetch NBA stats" |})
    (fun e =>
       ret {| statusCode := 500;
              body := json_dumps ("Error: " ++ exn_str e) |}).
End Pipeline.

(** ** What the claims about the pipeline speak of *)

(** The fields [store_team_stats] reads from a record. *)
Definition required_fields : list string :=
  ["TeamID"; "Key"; "City"; "Name"; "Conference"; "Division"] ++ stats_fields.

Definition present (d : list (pykey * pyval)) (name : string) : bool :=
  match dict_get d name with Some _ => true | None => false end.

Definition carries_required_fields (team : pyval) : bool :=
  match team with
  | PDict d => forallb (present d) required_fields
  | _ => false
  end.


(** A field of a record or of a stored item. *)
Definition field (name : string) (v : pyval) : option pyval :=
  match v with PDict d => dict_get d name | _ => None end.

(** [City] and [Name] of a record as the f-string joins them. *)
Definition city_and_name (py_str : pyval -> string) (team : pyval) : option pyval :=
  match field "City" team, field "Name" team with
  | Some c, Some n =>
      Some (PStr (format_value py_str c ++ " " ++ format_value py_str n))
  | _, _ => None
  end.

(** What a record and the item stored for it have in common: the item
    carries the batch's [Timestamp] and the record's city and name as its
    [TeamName]. *)
Definition item_of_team (py_str : pyval -> string) (timestamp : string)
    (team item : pyval) : Prop :=
  field "Timestamp" item = Some (PStr timestamp) /\
  field "TeamName" item = city_and_name py_str team.

(** The store takes every write. *)
Definition store_accepts (E : env) : Prop :=
  (forall sub item, put_fault E sub item = None) /\
  (forall sub, exit_fault E sub = None).

(** A 4xx or 5xx status, the ones [raise_for_status] raises for. *)
Definition error_status (c : Z) : bool := (400 <=? c) && (c <? 600).

Definition new_world : world :=
  {| tables := []; submitted := []; log := []; ticks := 0 |}.

(** *** A sample run: one record of the remote API, and an environment in
    which every collaborator answers. *)

Local Open Scope float_scope.

(** A stand-in for [str] on the scalars of the sample (any float outside the
    sample is written [0.5]). *)
Definition sample_str (v : pyval) : string :=
  match v with
  | PNone => "None"
  | PBool true => "True"
  | PBool false => "False"
  | PInt n => Z_str n
  | PStr s => s
  | PDecimal s => s
  | PFloat f =>
      if PrimFloat.eqb f 0.6097 then "0.6097"
      else if PrimFloat.eqb f 117.9 then "117.9"
      else if PrimFloat.eqb f 111.4 then "111.4"
      else if PrimFloat.eqb f 0.6666666 then "0.6666666"
      else "0.5"
  | _ => "..."
  end.

Definition celtics : pyval :=
  PDict
    [(KStr "TeamID", PInt 1); (KStr "Key", PStr "BOS"); (KStr "City", PStr "Boston");
     (KStr "Name", PStr "Celtics"); (KStr "Conference", PStr "East");
     (KStr "Division", PStr "Atlantic"); (KStr "Wins", PInt 50);
     (KStr "Losses", PInt 32); (KStr "Percentage", PFloat 0.6097);
     (KStr "PointsPerGameFor", PFloat 117.9);
     (KStr "PointsPerGameAgainst", PFloat 111.4); (KStr "HomeWins", PInt 30);
     (KStr "HomeLosses", PInt 11); (KStr "AwayWins", PInt 20);
     (KStr "AwayLosses", PInt 21); (KStr "LastTenWins", PInt 7);
     (KStr "LastTenLosses", PInt 3)].

(** The remote API answers [status] with the JSON value [json]. *)
Definition sample_env (status : Z) (json : result pyval) : env :=
  {| SPORTDATA_API_KEY := Some "key";
     DYNAMODB_TABLE_NAME := Some "nba-stats";
     isoformat := fun n => "2024-01-01T00:00:0" ++ Z_str (Z.of_nat n);
     cloudwatch_fault := None;
     resource_fault := None;
     create_fault := None;
     waiter_fault := None;
     requests_get := fun _ _ =>
       Ret {| status_code := status; reason := "-"; json_body := json |};
     put_fault := fun _ _ => None;
     exit_fault := fun _ => None |}.

Definition sample_pipeline : NBAStatsPipeline :=
  {| api_key := Some "key";
     base_url := "https://api.sportsdata.io/v3/nba";
     table_name := Some "nba-stats" |}.

(** A value with floats in every kind of place. *)
Definition nested_sample : pyval :=
  PList [PDict [(KStr "pct", PFloat 0.6666666); (KStr "wins", PInt 3)];
         PList [PFloat 0.6097; PStr "x"; PNone; PBool true]].

(** A value without floats. *)
Definition plain_sample : pyval :=
  PDict [(KStr "wins", PInt 3); (KStr "tags", PList [PStr "x"; PNone])].

(** A dict with a float key and a tuple of floats as the value. *)
Definition keyed_sample : pyval :=
  PDict [(KFloat 0.5, PTuple [PFloat 0.6097])].

Local Close Scope float_scope.

(** ** [main]: the run from the command line *)

(** [stats[:2]]: the first two elements of a sequence; a dict raises
    ([TypeError] up to Python 3.11, which the model takes; [KeyError] from
    3.12 on), as does a value that cannot be indexed. *)
Definition py_slice2 (v : pyval) : result pyval :=
  match v with
  | PStr s => Ret (PStr (substring 0 2 s))
  | PList l => Ret (PList (firstn 2 l))
  | PTuple l => Ret (PTuple (firstn 2 l))
  | PDict _ => Raise (TypeError "unhashable type: 'slice'")
  | _ => Raise (TypeError ("'" ++ type_name v ++ "' object is not subscriptable"))
  end.

(** [main] also prints, and reports its failure through the root logger:
    the world, the lines printed and the lines the root logger wrote. *)
Record console : Type := {
  the_world : world;
  stdout : list string;
  root_log : list string
}.

Definition C (A : Type) : Type := console -> result A * console.

Definition c_ret {A : Type} (a : A) : C A := fun c => (Ret a, c).

Definition c_bind {A B : Type} (m : C A) (k : A -> C B) : C B :=
  fun c =>
    match m c with
    | (Ret a, c') => k a c'
    | (Raise e, c') => (Raise e, c')
    end.

Definition c_try {A : Type} (body : C A) (handler : exn -> C A) : C A :=
  fun c =>
    match body c with
    | (Ret a, c') => (Ret a, c')
    | (Raise e, c') => handler e c'
    end.

(** A method of the pipeline, run from [main]. *)
Definition in_world {A : Type} (m : M A) : C A :=
  fun c =>
    let (r, w') := m (the_world c) in
    (r, {| the_world := w'; stdout := stdout c; root_log := root_log c |}).

Definition c_lift {A : Type} (r : result A) : C A := fun c => (r, c).

Definition print (line : string) : C unit :=
  fun c =>
    (Ret tt,
     {| the_world := the_world c; stdout := (stdout c ++ [line])%list;
        root_log := root_log c |}).

(** [logging.error(msg)] *)
Definition logging_error (msg : string) : C unit :=
  fun c =>
    (Ret tt,
     {| the_world := the_world c; stdout := stdout c;
        root_log := (root_log c ++ [msg])%list |}).

Section Main.
Variable py_str : pyval -> string.
Variable E : env.
(** [json.dumps(v, indent=2)], the serializer of the [json] module. *)
Variable json_dumps_indent : pyval -> result string.

Definition main : C unit :=
  c_try
    (c_bind (in_world (new_NBAStatsPipeline E)) (fun pipeline =>
     c_bind (in_world (setup_dynamodb_table E pipeline)) (fun _ =>
     c_bind (print "Fetching NBA Stats...") (fun _ =>
     c_bind (in_world (fetch_player_stats E pipeline "2024")) (fun stats =>
     if truthy stats then
       c_bind (in_world (store_team_stats py_str E pipeline stats)) (fun _ =>
       c_bind (print "Successfully stored team stats in DynamoDB!") (fun _ =>
       c_bind (print (String "010" "Sample of stored data:")) (fun _ =>
       c_bind (c_lift (py_slice2 stats)) (fun first_two =>
       c_bind (c_lift (json_dumps_indent first_two)) (fun text =>
       print text)))))
     else print "Failed to fetch stats")))))
    (fun e => logging_error ("Main execution failed: " ++ exn_str e)).
End Main.

(** ** What the further properties speak of *)

Definition key_is_str (k : pykey) : bool :=
  match k with KStr _ => true | _ => false end.

(** A value built from scalars, lists and dicts with string keys, as the
    [json] module gives them: no tuple, no key that is not a string. *)
Fixpoint json_shaped (v : pyval) : bool :=
  match v with
  | PList l => forallb json_shaped l
  | PTuple _ => false
  | PDict d =>
      forallb (fun kv : pykey * pyval =>
                 let (k, x) := kv in key_is_str k && json_shaped x) d
  | _ => true
  end.

(** Whether [len(v)] is defined. *)
Definition sized (v : pyval) : bool :=
  match v with
  | PStr _ | PList _ | PTuple _ | PDict _ => true
  | _ => false
  end.

(** The item stored for a record at clock reading [reading]: it carries the
    batch's timestamp and the record's name, a [LastUpdated] of its own, the
    record's identifying fields as they are, and under [Stats] each of the
    eleven figures, converted; for a record as [json] gives it, [Stats]
    holds no float. *)
Definition stored_for (py_str : pyval -> string) (E : env) (timestamp : string)
    (reading : nat) (team item : pyval) : Prop :=
  item_of_team py_str timestamp team item /\
  field "LastUpdated" item = Some (PStr (isoformat E reading)) /\
  field "TeamID" item = field "TeamID" team /\
  field "TeamKey" item = field "Key" team /\
  field "Conference" item = field "Conference" team /\
  field "Division" item = field "Division" team /\
  (json_shaped team = true ->
   exists stats, field "Stats" item = Some stats /\ has_float stats = false) /\
  forall name, In name stats_fields ->
    exists x, field name team = Some x /\
              match field "Stats" item with
              | Some stats => field name stats
              | None => None
              end = Some (convert_floats_to_decimals (str_of_float py_str) x).

(** The items stored for a run of records, the first of them made at clock
    reading [reading] and each next one at the next reading. *)
Fixpoint each_stored (py_str : pyval -> string) (E : env) (timestamp : string)
    (reading : nat) (teams items : list pyval) : Prop :=
  match teams, items with
  | [], [] => True
  | team :: teams', item :: items' =>
      stored_for py_str E timestamp reading team item /\
      each_stored py_str E timestamp (S reading) teams' items'
  | _, _ => False
  end.

(** The last record of the log. *)
Definition last_logged (w : world) : option log_record :=
  match rev (log w) with
  | r :: _ => Some r
  | [] => None
  end.

(** An environment whose store refuses every write. *)
Definition refusing_env (status : Z) (json : result pyval) : env :=
  {| SPORTDATA_API_KEY := Some "key";
     DYNAMODB_TABLE_NAME := Some "nba-stats";
     isoformat := fun n => "2024-01-01T00:00:0" ++ Z_str (Z.of_nat n);
     cloudwatch_fault := Some (OtherException "NoCredentialsError" "no credentials");
     resource_fault := None;
     create_fault := None;
     waiter_fault := None;
     requests_get := fun _ _ =>
       Ret {| status_code := status; reason := "-"; json_body := json |};
     put_fault := fun _ _ =>
       Some (OtherException "ClientError" "throughput exceeded");
     exit_fault := fun _ => None |}.

Definition new_console : console :=
  {| the_world := new_world; stdout := []; root_log := [] |}.

(** * Properties *)

(** ** The transform *)

Section TransformFacts.
Variable float_str : float -> string.
Local Abbreviation convert := (convert_floats_to_decimals float_str).

Lemma convert_list (l : list pyval) : convert (PList l) = PList (map convert l).
Proof. reflexivity. Qed.

Lemma convert_dict (d : list (pykey * pyval)) :
  convert (PDict d) = PDict (map (fun kv => (fst kv, convert (snd kv))) d).
Proof.
  simpl. f_equal. apply map_ext. intros [k v]. reflexivity.
Qed.

Lemma convert_keys (v : pyval) : keys_of (convert v) = keys_of v.
Proof.
  destruct v; try reflexivity.
  rewrite convert_dict. simpl. rewrite map_map. reflexivity.
Qed.

(** A value that is neither float, dict nor list is returned as it is. *)
Lemma convert_other (v : pyval) :
  is_float v = false -> is_dict v = false -> is_list v = false -> convert v = v.
Proof. destruct v; simpl; intros; congruence. Qed.

Lemma convert_not_float (v : pyval) : is_float (convert v) = false.
Proof. destruct v; reflexivity. Qed.

(** The transform commutes with going down one step ... *)
Lemma child_convert (i : nat) (v : pyval) :
  child i (convert v) = option_map convert (child i v).
Proof.
  destruct v; try reflexivity.
  - simpl. apply nth_error_map.
  - rewrite convert_dict. simpl. rewrite nth_error_map.
    destruct (nth_error d i) as [[k x]|]; reflexivity.
Qed.

(** ... and so with going down any path. *)
Lemma at_path_convert (p : list nat) :
  forall v, at_path p (convert v) = option_map convert (at_path p v).
Proof.
  induction p as [|i q IH]; intro v.
  - reflexivity.
  - simpl. rewrite child_convert.
    destruct (child i v) as [x|]; simpl; [apply IH | reflexivity].
Qed.




(** Claim C1, as amended.  At every position the transform visits (the value
    itself, the elements of lists and the values of dicts, at any depth) a
    float [f] is replaced by [Decimal(str(f))], the decimal built from the
    float's own string with no rounding step; a value there that is neither
    float, dict nor list stays as it is; no float is left at such a position;
    and dicts keep their keys, lists and dicts their size. *)
Theorem transform_replaces_visited_floats (v : pyval) (p : list nat) :
  (forall f, at_path p v = Some (PFloat f) ->
             at_path p (convert v) = Some (PDecimal (float_str f))) /\
  (forall x, at_path p v = Some x ->
             is_float x = false -> is_dict x = false -> is_list x = false ->
             at_path p (convert v) = Some x) /\
  (forall x, at_path p (convert v) = Some x -> is_float x = false) /\
  (forall x, at_path p (convert v) = Some x ->
             exists y, at_path p v = Some y /\
                       keys_of x = keys_of y /\ width x = width y).
Proof.
  rewrite at_path_convert.
  split; [|split; [|split]].
  - intros f H. rewrite H. reflexivity.
  - intros x H Hf Hd Hl. rewrite H. simpl. f_equal. now apply convert_other.
  - intros x H. destruct (at_path p v) as [y|]; [|discriminate].
    injection H as <-. apply convert_not_float.
  - intros x H. destruct (at_path p v) as [y|]; [|discriminate].
    injection H as <-. exists y. split; [reflexivity|]. split.
    + apply convert_keys.
    + destruct y; try reflexivity.
      * simpl. now rewrite length_map.
      * rewrite convert_dict. simpl. now rewrite length_map.
Qed.

(** Claim C6.  Applying the transform twice gives what applying it once
    gives. *)
Theorem transform_idempotent (x : pyval) : convert (convert x) = convert x.
Proof.
  induction x as [ | | | | | | l IH | l IH | d IH] using pyval_nested_ind;
    try reflexivity.
  - rewrite !convert_list. f_equal. rewrite map_map.
    apply map_ext_Forall. exact IH.
  - rewrite !convert_dict. f_equal. rewrite map_map.
    apply map_ext_Forall.
    eapply Forall_impl; [|exact IH].
    intros [k x] H. simpl in *. rewrite H. reflexivity.
Qed.


(** Claim C10.  On a value with no float anywhere the transform is the
    identity: keys and their order, lengths and order of elements and every
    leaf are those of the input. *)
Theorem transform_identity_without_floats (v : pyval) :
  has_float v = false -> convert v = v.
Proof.
  induction v as [ | | | | | | l IH | l IH | d IH] using pyval_nested_ind;
    try reflexivity.
  - discriminate.
  - intro H. rewrite convert_list. f_equal.
    rewrite <- (map_id l) at 2. apply map_ext_Forall.
    simpl in H. induction IH as [|x r Hx _ IHr]; constructor.
    + apply Hx. simpl in H. apply orb_false_elim in H. tauto.
    + apply IHr. simpl in H. apply orb_false_elim in H. tauto.
  - intro H. rewrite convert_dict. f_equal.
    rewrite <- (map_id d) at 2. apply map_ext_Forall.
    simpl in H. induction IH as [|[k x] r Hx _ IHr]; constructor.
    + simpl in *. apply orb_false_elim in H. destruct H as [H _].
      apply orb_false_elim in H. rewrite Hx; tauto.
    + apply IHr. simpl in H. apply orb_false_elim in H. tauto.
Qed.
End TransformFacts.

(** The claim as stated fails where a float is a dict key or sits in a tuple:
    [{0.5: (0.6097,)}] comes back as it is, floats included, whatever [str]
    does. *)
Lemma transform_keeps_key_and_tuple_floats :
  has_float keyed_sample = true /\
  (forall float_str, convert_floats_to_decimals float_str keyed_sample = keyed_sample) /\
  has_float (convert_floats_to_decimals (str_of_float sample_str) keyed_sample) = true.
Proof. repeat split. Qed.

(** On the nested sample: the float under [0], ["pct"] becomes the decimal of
    its string, the string at [1], [1] stays. *)
Lemma transform_replaces_visited_floats_witness :
  at_path [0; 0]%nat (convert_floats_to_decimals (str_of_float sample_str) nested_sample)
  = Some (PDecimal "0.6666666") /\
  at_path [1; 1]%nat (convert_floats_to_decimals (str_of_float sample_str) nested_sample)
  = Some (PStr "x").
Proof.
  split.
  - exact (proj1 (transform_replaces_visited_floats (str_of_float sample_str)
                    nested_sample [0; 0]%nat) _ eq_refl).
  - exact (proj1 (proj2 (transform_replaces_visited_floats (str_of_float sample_str)
                           nested_sample [1; 1]%nat)) _ eq_refl eq_refl eq_refl eq_refl).
Defined.


(** The sample without floats comes back as it is. *)
Lemma transform_identity_without_floats_witness :
  convert_floats_to_decimals (str_of_float sample_str) plain_sample = plain_sample.
Proof.
  exact (transform_identity_without_floats (str_of_float sample_str) plain_sample
           eq_refl).
Defined.

(** ** The fetcher *)




(** ** The provisioner *)

Lemma existsb_eqb_last (n : string) (l : list string) :
  existsb (String.eqb n) (l ++ [n]) = true.
Proof.
  rewrite existsb_app. simpl. rewrite String.eqb_refl.
  now rewrite orb_true_r.
Qed.

Local Arguments append : simpl never.

(** Claim C5.  When the creation attempt fails with [ResourceInUseException]
    (the table is there already), [setup_dynamodb_table] returns a handle to
    the table of that name and raises nothing; so it does when the table is
    in the store; a call that succeeded succeeds again when repeated, with
    the same handle and the same tables; and any other failure of the
    creation attempt is raised again to the caller, after an ERROR record
    with the cause and the table name. *)
Theorem setup_dynamodb_table_idempotent (E : env) (self : NBAStatsPipeline)
    (w : world) :
  let w0 := snd (logger_info
                   ("Setting up DynamoDB table: " ++ opt_str (table_name self)) [] w) in
  (forall e w1,
      create_table_and_wait E self w0 = (Raise e, w1) ->
      is_ResourceInUseException e = true ->
      exists n w2, table_name self = Some n /\
                   setup_dynamodb_table E self w = (Ret {| TableName := n |}, w2) /\
                   tables w2 = tables w1) /\
  (forall n,
      table_name self = Some n -> create_fault E = None ->
      existsb (String.eqb n) (tables w) = true ->
      exists w2, setup_dynamodb_table E self w = (Ret {| TableName := n |}, w2) /\
                 tables w2 = tables w) /\
  (forall t w1,
      setup_dynamodb_table E self w = (Ret t, w1) ->
      exists w2, setup_dynamodb_table E self w1 = (Ret t, w2) /\
                 tables w2 = tables w1) /\
  (forall e w1,
      create_table_and_wait E self w0 = (Raise e, w1) ->
      is_ResourceInUseException e = false ->
      setup_dynamodb_table E self w =
      (Raise e,
       add_log {| level := ERROR; message := "Failed to set up DynamoDB table";
                  extra := [("error", PStr (exn_str e));
                            ("table_name", opt_val (table_name self))] |} w1)).
Proof.
  intro w0. subst w0.
  unfold setup_dynamodb_table, create_table_and_wait, try_except, bind,
    create_table, wait_table_exists, dynamodb_Table, logger_info, logger_error,
    emit, ret, raise.
  cbn [snd].
  destruct (table_name self) as [n|] eqn:Hn; cbn.
  2:{ repeat split; intros; try discriminate.
      - injection H as <- <-. discriminate.
      - injection H as <- <-. reflexivity. }
  destruct (create_fault E) as [e0|] eqn:Hc; cbn.
  - destruct (is_ResourceInUseException e0) eqn:He0;
      repeat split; intros; try discriminate; try congruence;
      injection H as <- <-; cbn; rewrite ?He0;
      try reflexivity; repeat eexists.
  - destruct (existsb (String.eqb n) (tables w)) eqn:Hex; cbn.
    + repeat split; intros; try discriminate; try congruence.
      * injection H as <- <-. repeat eexists.
      * injection H as <-. repeat eexists.
      * injection H as <- <-. cbn. rewrite Hex. repeat eexists.
      * injection H as <- <-. discriminate.
    + destruct (waiter_fault E) as [e1|] eqn:Hw; cbn.
      * destruct (is_ResourceInUseException e1) eqn:He1;
          repeat split; intros; try discriminate; try congruence;
          injection H as <- <-; cbn; rewrite ?existsb_eqb_last;
          try reflexivity; repeat eexists.
      * repeat split; intros; try discriminate; try congruence.
        injection H as <- <-. cbn. rewrite existsb_eqb_last. repeat eexists.
Qed.

(** In the sample environment the call that follows a first call succeeds
    with the same handle and leaves the tables as they are. *)
Lemma setup_dynamodb_table_idempotent_witness :
  exists w2,
    setup_dynamodb_table (sample_env 200 (Ret PNone)) sample_pipeline
      (snd (setup_dynamodb_table (sample_env 200 (Ret PNone)) sample_pipeline new_world))
    = (Ret {| TableName := "nba-stats" |}, w2) /\
    tables w2
    = tables (snd (setup_dynamodb_table (sample_env 200 (Ret PNone)) sample_pipeline
                     new_world)).
Proof.
  exact (proj1 (proj2 (proj2 (setup_dynamodb_table_idempotent
                                (sample_env 200 (Ret PNone)) sample_pipeline new_world)))
           _ _ eq_refl).
Defined.

(** ** The persister *)

Section PersisterFacts.
Variable py_str : pyval -> string.
Variable E : env.

Lemma read_fields_present (names : list string) (d : list (pykey * pyval))
    (w : world) :
  forallb (present d) names = true ->
  exists l, read_fields names (PDict d) w = (Ret l, w).
Proof.
  induction names as [|name r IH]; intro H.
  - exists []. reflexivity.
  - cbn [forallb] in H. apply andb_prop in H as [Hn Hr].
    destruct (IH Hr) as [l Hl].
    unfold present in Hn.
    cbn [read_fields]. unfold bind, lift, py_getitem.
    destruct (dict_get d name) as [x|]; [|discriminate].
    rewrite Hl. eexists. reflexivity.
Qed.

(** A record with the required fields gives an item, at the cost of one
    reading of the clock. *)
Lemma team_item_present (timestamp : string) (team : pyval) (w : world) :
  carries_required_fields team = true ->
  exists item name,
    team_item py_str E timestamp team w = (Ret item, snd (datetime_now w)) /\
    py_getitem item "TeamName" = Ret name /\
    item_of_team py_str timestamp team item.
Proof.
  destruct team as [ | | | | | | | | d]; try discriminate.
  unfold carries_required_fields, required_fields.
  rewrite forallb_app. intro H. apply andb_prop in H as [H6 Hs].
  cbn [forallb] in H6. unfold present in H6.
  destruct (dict_get d "TeamID") as [v1|] eqn:E1; [|discriminate].
  destruct (dict_get d "Key") as [v2|] eqn:E2; [|discriminate].
  destruct (dict_get d "City") as [v3|] eqn:E3; [|discriminate].
  destruct (dict_get d "Name") as [v4|] eqn:E4; [|discriminate].
  destruct (dict_get d "Conference") as [v5|] eqn:E5; [|discriminate].
  destruct (dict_get d "Division") as [v6|] eqn:E6; [|discriminate].
  destruct (read_fields_present stats_fields d w Hs) as [l Hl].
  unfold team_item, bind, lift, py_getitem.
  rewrite E1, E2, E3, E4, E5, E6, Hl.
  unfold datetime_now, ret. eexists _, _. split; [reflexivity|].
  unfold item_of_team, city_and_name, field. rewrite E3, E4.
  repeat split.
Qed.

Lemma put_team_loop (timestamp : string) (teams : list pyval) :
  (forall sub item, put_fault E sub item = None) ->
  Forall (fun team => carries_required_fields team = true) teams ->
  forall w, exists items w',
    for_each teams (put_team py_str E timestamp) w = (Ret tt, w') /\
    submitted w' = (submitted w ++ items)%list /\
    Forall2 (item_of_team py_str timestamp) teams items.
Proof.
  intros Hput Hteams. induction Hteams as [|team r Ht _ IH]; intro w.
  - exists [], w. repeat split.
    + now rewrite app_nil_r.
    + constructor.
  - destruct (team_item_present timestamp team w Ht) as (item & name & Hi & Hn & Hp).
    cbn [for_each]. unfold bind at 1. unfold put_team at 1. unfold bind, lift.
    rewrite Hi, Hn. unfold logger_info, emit, batch_put_item.
    rewrite Hput.
    match goal with
    | |- context [for_each r _ ?w1] => destruct (IH w1) as (items & w' & Hr & Hs & Hf)
    end.
    rewrite Hr. exists (item :: items), w'. repeat split.
    + rewrite Hs. cbn. now rewrite <- app_assoc.
    + now constructor.
Qed.

(** With a table name, a store that takes every write and records that carry
    the required fields, [store_team_stats] returns normally, having
    submitted one item for each record, in order. *)
Lemma store_team_stats_run (self : NBAStatsPipeline) (teams : list pyval)
    (w : world) :
  table_name self <> None ->
  store_accepts E ->
  Forall (fun team => carries_required_fields team = true) teams ->
  exists items w',
    store_team_stats py_str E self (PList teams) w = (Ret tt, w') /\
    submitted w' = (submitted w ++ items)%list /\
    Forall2 (item_of_team py_str (isoformat E (ticks w))) teams items.
Proof.
  intros Hname [Hput Hexit] Hteams.
  unfold store_team_stats, try_except, bind, dynamodb_Table.
  destruct (table_name self) as [n|]; [|congruence].
  unfold ret, datetime_now, logger_info, emit, with_batch_writer, lift, py_iter, py_len.
  match goal with
  | |- context [for_each teams _ ?w1] =>
      destruct (put_team_loop (isoformat E (ticks w)) teams Hput Hteams w1)
        as (items & w' & Hr & Hs & Hf)
  end.
  rewrite Hr, Hexit.
  match goal with
  | |- context [if ?c then _ else _] => destruct c
  end;
    (exists items; eexists; split; [reflexivity|]; split; [|exact Hf];
     cbn; rewrite Hs; reflexivity).
Qed.

(** Given an empty list, [store_team_stats] submits nothing and returns
    normally. *)
Lemma store_team_stats_empty (self : NBAStatsPipeline) (w : world) :
  table_name self <> None ->
  exists w',
    store_team_stats py_str E self (PList []) w = (Ret tt, w') /\
    submitted w' = submitted w.
Proof.
  intro Hname.
  unfold store_team_stats, try_except, bind, dynamodb_Table.
  destruct (table_name self) as [n|]; [|congruence].
  cbn. rewrite Nat.eqb_refl. eexists. split; reflexivity.
Qed.
End PersisterFacts.

Lemma city_and_name_present (py_str : pyval -> string) (team : pyval) :
  carries_required_fields team = true ->
  exists c n,
    field "City" team = Some c /\ field "Name" team = Some n /\
    city_and_name py_str team
    = Some (PStr (format_value py_str c ++ " " ++ format_value py_str n)).
Proof.
  destruct team as [ | | | | | | | | d]; try discriminate.
  unfold carries_required_fields, required_fields.
  rewrite forallb_app. intro H. apply andb_prop in H as [H6 _].
  cbn [forallb] in H6. unfold present in H6.
  unfold city_and_name, field.
  destruct (dict_get d "TeamID"); [|discriminate].
  destruct (dict_get d "Key"); [|discriminate].
  destruct (dict_get d "City") as [c|]; [|discriminate].
  destruct (dict_get d "Name") as [n|]; [|discriminate].
  exists c, n. repeat split.
Qed.

(** Claim C2.  Given a non-empty list of M records that carry the required
    fields (with a table name configured and a store that takes the writes),
    [store_team_stats] returns normally having handed exactly M items to
    [batch.put_item], one for each record and in their order; every item has
    the same [Timestamp], the reading of the clock taken once on entry; and
    each item's [TeamName] is the record's [City], one space, and its
    [Name]. *)
Theorem store_team_stats_submits_every_record (py_str : pyval -> string)
    (E : env) (self : NBAStatsPipeline) (teams : list pyval) (w : world) :
  teams <> [] ->
  Forall (fun team => carries_required_fields team = true) teams ->
  table_name self <> None ->
  store_accepts E ->
  exists items w',
    store_team_stats py_str E self (PList teams) w = (Ret tt, w') /\
    submitted w' = (submitted w ++ items)%list /\
    List.length items = List.length teams /\
    Forall (fun item =>
              field "Timestamp" item = Some (PStr (isoformat E (ticks w)))) items /\
    Forall2 (fun team item =>
               exists c n,
                 field "City" team = Some c /\ field "Name" team = Some n /\
                 field "TeamName" item
                 = Some (PStr (format_value py_str c ++ " " ++ format_value py_str n)))
            teams items.
Proof.
  intros _ Hteams Hname Hstore.
  destruct (store_team_stats_run py_str E self teams w Hname Hstore Hteams)
    as (items & w' & Hrun & Hsub & Hf).
  exists items, w'. repeat split; try assumption.
  - symmetry. eapply Forall2_length. exact Hf.
  - clear - Hf. induction Hf as [|team item r ri [Hts _] _ IH]; constructor; assumption.
  - clear - Hf Hteams. induction Hf as [|team item r ri [_ Hn] _ IH].
    + constructor.
    + inversion Hteams as [|? ? Ht Hr]; subst. constructor; [|now apply IH].
      destruct (city_and_name_present py_str team Ht) as (c & n & Hc & Hnm & Hcn).
      exists c, n. repeat split; try assumption. congruence.
Qed.

(** The Celtics record alone, in the sample environment. *)
Lemma store_team_stats_submits_every_record_witness :
  exists items w',
    store_team_stats sample_str (sample_env 200 (Ret (PList [celtics])))
      sample_pipeline (PList [celtics]) new_world = (Ret tt, w') /\
    submitted w' = (submitted new_world ++ items)%list /\
    List.length items = List.length [celtics] /\
    Forall (fun item =>
              field "Timestamp" item
              = Some (PStr (isoformat (sample_env 200 (Ret (PList [celtics])))
                              (ticks new_world)))) items /\
    Forall2 (fun team item =>
               exists c n,
                 field "City" team = Some c /\ field "Name" team = Some n /\
                 field "TeamName" item
                 = Some (PStr (format_value sample_str c ++ " "
                                 ++ format_value sample_str n)))
            [celtics] items.
Proof.
  apply (store_team_stats_submits_every_record sample_str
           (sample_env 200 (Ret (PList [celtics]))) sample_pipeline [celtics] new_world).
  - discriminate.
  - repeat constructor.
  - discriminate.
  - split; reflexivity.
Defined.

(** The end-to-end scenario of the specification: the item stored for the
    Boston Celtics record. *)
Example celtics_stored :
  submitted (snd (store_team_stats sample_str (sample_env 200 (Ret (PList [celtics])))
                    sample_pipeline (PList [celtics]) new_world))
  = [PDict
       [(KStr "TeamID", PInt 1);
        (KStr "Timestamp", PStr "2024-01-01T00:00:00");
        (KStr "TeamKey", PStr "BOS");
        (KStr "TeamName", PStr "Boston Celtics");
        (KStr "Conference", PStr "East");
        (KStr "Division", PStr "Atlantic");
        (KStr "Stats",
         PDict [(KStr "Wins", PInt 50); (KStr "Losses", PInt 32);
                (KStr "Percentage", PDecimal "0.6097");
                (KStr "PointsPerGameFor", PDecimal "117.9");
                (KStr "PointsPerGameAgainst", PDecimal "111.4");
                (KStr "HomeWins", PInt 30); (KStr "HomeLosses", PInt 11);
                (KStr "AwayWins", PInt 20); (KStr "AwayLosses", PInt 21);
                (KStr "LastTenWins", PInt 7); (KStr "LastTenLosses", PInt 3)]);
        (KStr "LastUpdated", PStr "2024-01-01T00:00:01")]].
Proof. vm_compute. reflexivity. Qed.

(** ** The entry point *)

Section HandlerFacts.
Variable py_str : pyval -> string.
Variable E : env.
Variables event context : pyval.

Local Abbreviation succeeded :=
  {| statusCode := 200; body := json_dumps "Successfully updated NBA stats" |}.
Local Abbreviation fetch_failed :=
  {| statusCode := 500; body := json_dumps "Failed to fetch NBA stats" |}.
Local Abbreviation errored :=
  (fun e => {| statusCode := 500; body := json_dumps ("Error: " ++ exn_str e) |}).

(** The handler, stage by stage. *)
Lemma lambda_handler_stages (w : world) :
  lambda_handler py_str E event context w =
  match new_NBAStatsPipeline E w with
  | (Raise e, w1) => (Ret (errored e), w1)
  | (Ret p, w1) =>
      match setup_dynamodb_table E p w1 with
      | (Raise e, w2) => (Ret (errored e), w2)
      | (Ret _, w2) =>
          match fetch_player_stats E p "2024" w2 with
          | (Raise e, w3) => (Ret (errored e), w3)
          | (Ret stats, w3) =>
              if truthy stats then
                match store_team_stats py_str E p stats w3 with
                | (Raise e, w4) => (Ret (errored e), w4)
                | (Ret _, w4) => (Ret succeeded, w4)
                end
              else (Ret fetch_failed, w3)
          end
      end
  end.
Proof.
  unfold lambda_handler, try_except, bind.
  destruct (new_NBAStatsPipeline E w) as [[p|e] w1]; [|reflexivity].
  destruct (setup_dynamodb_table E p w1) as [[t|e] w2]; [|reflexivity].
  destruct (fetch_player_stats E p "2024" w2) as [[stats|e] w3]; [|reflexivity].
  destruct (truthy stats); [|reflexivity].
  destruct (store_team_stats py_str E p stats w3) as [[u|e] w4]; reflexivity.
Qed.

(** Claim C3.  In a run where the fetcher is reached and returns [None], the
    handler returns status 500 with a message containing "Failed to fetch NBA
    stats"; in a run where provisioning succeeds, the fetcher returns data
    and the persister succeeds, it returns status 200 with a message
    containing "Successfully updated NBA stats". *)
Theorem lambda_handler_fetch_failure_and_success (w w1 w2 : world)
    (p : NBAStatsPipeline) (t : table) :
  new_NBAStatsPipeline E w = (Ret p, w1) ->
  setup_dynamodb_table E p w1 = (Ret t, w2) ->
  (forall w3,
      fetch_player_stats E p "2024" w2 = (Ret PNone, w3) ->
      exists r,
        lambda_handler py_str E event context w = (Ret r, w3) /\
        statusCode r = 500 /\
        contains "Failed to fetch NBA stats" (body r) = true) /\
  (forall stats w3 w4,
      fetch_player_stats E p "2024" w2 = (Ret stats, w3) ->
      truthy stats = true ->
      store_team_stats py_str E p stats w3 = (Ret tt, w4) ->
      exists r,
        lambda_handler py_str E event context w = (Ret r, w4) /\
        statusCode r = 200 /\
        contains "Successfully updated NBA stats" (body r) = true).
Proof.
  intros Hinit Hsetup. split.
  - intros w3 Hfetch. rewrite lambda_handler_stages, Hinit, Hsetup, Hfetch.
    cbn [truthy]. eexists. repeat split.
  - intros stats w3 w4 Hfetch Hdata Hstore.
    rewrite lambda_handler_stages, Hinit, Hsetup, Hfetch, Hdata, Hstore.
    eexists. repeat split.
Qed.

(** Claim C7, as amended.  When the fetcher returns an empty list, the
    handler treats it as it treats [None]: it returns status 500 with
    "Failed to fetch NBA stats" and the persister does not run (the world
    is left as the fetcher left it).  The persister itself, given an empty
    list, submits nothing and returns normally. *)
Theorem lambda_handler_empty_fetch (w w1 w2 w3 : world) (p : NBAStatsPipeline)
    (t : table) :
  new_NBAStatsPipeline E w = (Ret p, w1) ->
  setup_dynamodb_table E p w1 = (Ret t, w2) ->
  fetch_player_stats E p "2024" w2 = (Ret (PList []), w3) ->
  lambda_handler py_str E event context w = (Ret fetch_failed, w3) /\
  (table_name p <> None ->
   exists w4, store_team_stats py_str E p (PList []) w3 = (Ret tt, w4) /\
              submitted w4 = submitted w3).
Proof.
  intros Hinit Hsetup Hfetch. split.
  - rewrite lambda_handler_stages, Hinit, Hsetup, Hfetch. reflexivity.
  - apply store_team_stats_empty.
Qed.

End HandlerFacts.

(** A 500 from the remote API gives the fetch-failure result; a 200 with the
    Celtics record gives the success result. *)
Lemma lambda_handler_fetch_failure_and_success_witness :
  (exists r w',
      lambda_handler sample_str (sample_env 500 (Ret PNone)) PNone PNone new_world
      = (Ret r, w') /\
      statusCode r = 500 /\
      contains "Failed to fetch NBA stats" (body r) = true) /\
  (exists r w',
      lambda_handler sample_str (sample_env 200 (Ret (PList [celtics]))) PNone PNone
        new_world
      = (Ret r, w') /\
      statusCode r = 200 /\
      contains "Successfully updated NBA stats" (body r) = true).
Proof.
  split.
  - pose proof (lambda_handler_fetch_failure_and_success sample_str
                  (sample_env 500 (Ret PNone)) PNone PNone new_world) as H.
    specialize (H _ _ _ _ ltac:(lazy; reflexivity) ltac:(lazy; reflexivity)).
    destruct (proj1 H _ ltac:(lazy; reflexivity)) as [r Hr].
    exists r. eexists. exact Hr.
  - pose proof (lambda_handler_fetch_failure_and_success sample_str
                  (sample_env 200 (Ret (PList [celtics]))) PNone PNone new_world) as H.
    specialize (H _ _ _ _ ltac:(lazy; reflexivity) ltac:(lazy; reflexivity)).
    destruct (proj2 H _ _ _ ltac:(lazy; reflexivity) eq_refl ltac:(lazy; reflexivity))
      as [r Hr].
    exists r. eexists. exact Hr.
Defined.

(** The claim as stated fails: with the remote API answering 200 and an empty
    JSON array, the fetcher returns the empty list, and the handler answers
    500 "Failed to fetch NBA stats" with nothing handed to the store. *)
Lemma empty_fetch_is_reported_as_failure :
  fst (fetch_player_stats (sample_env 200 (Ret (PList []))) sample_pipeline "2024"
         new_world)
  = Ret (PList []) /\
  fst (lambda_handler sample_str (sample_env 200 (Ret (PList []))) PNone PNone new_world)
  = Ret {| statusCode := 500; body := json_dumps "Failed to fetch NBA stats" |} /\
  submitted (snd (lambda_handler sample_str (sample_env 200 (Ret (PList []))) PNone
                    PNone new_world))
  = [].
Proof. vm_compute. repeat split. Qed.

(** The empty JSON array, in the sample environment. *)
Lemma lambda_handler_empty_fetch_witness :
  fst (lambda_handler sample_str (sample_env 200 (Ret (PList []))) PNone PNone new_world)
  = Ret {| statusCode := 500; body := json_dumps "Failed to fetch NBA stats" |}.
Proof.
  pose proof (lambda_handler_empty_fetch sample_str (sample_env 200 (Ret (PList [])))
                PNone PNone new_world) as H.
  specialize (H _ _ _ _ _ ltac:(lazy; reflexivity) ltac:(lazy; reflexivity)
                ltac:(lazy; reflexivity)).
  exact (f_equal fst (proj1 H)).
Defined.

(** * Further properties *)

(** ** The transform on values as [json] gives them *)

Section TransformMore.
Variable float_str : float -> string.
Local Abbreviation convert := (convert_floats_to_decimals float_str).

(** On a value built from scalars, lists and string-keyed dicts the
    transform leaves no float. *)
Lemma convert_json_no_float (v : pyval) :
  json_shaped v = true -> has_float (convert v) = false.
Proof.
  induction v as [ | | | | | | l IH | l IH | d IH] using pyval_nested_ind;
    try reflexivity.
  - intro H. rewrite convert_list. cbn [has_float json_shaped] in *.
    induction IH as [|x r Hx _ IHr]; [reflexivity|].
    cbn in H |- *. apply andb_prop in H as [H1 H2].
    rewrite (Hx H1). now apply IHr.
  - discriminate.
  - intro H. rewrite convert_dict. cbn [has_float json_shaped] in *.
    induction IH as [|[k x] r Hx _ IHr]; [reflexivity|].
    cbn in H |- *. apply andb_prop in H as [H1 H2].
    apply andb_prop in H1 as [Hk H1].
    cbn [snd] in Hx. rewrite (Hx H1), (IHr H2).
    destruct k; try discriminate. reflexivity.
Qed.

(** Property X1.  On a value built from scalars, lists and string-keyed dicts
    (what [response.json()] yields) the transform leaves no float anywhere:
    not at any depth, not among the keys. *)
Theorem convert_json_leaves_no_float (v : pyval) :
  json_shaped v = true -> has_float (convert v) = false.
Proof. exact (convert_json_no_float v). Qed.

(** Looking a field up in the converted dict gives the converted field of
    the dict. *)
Lemma field_convert (name : string) (v : pyval) :
  field name (convert v) = option_map convert (field name v).
Proof.
  destruct v; try reflexivity.
  rewrite convert_dict. unfold field.
  induction d as [|[k x] r IH]; [reflexivity|].
  cbn [map dict_get fst snd]. destruct (key_is name k); [reflexivity|exact IH].
Qed.
End TransformMore.

(** The sample record is such a value: converted, it holds no float. *)
Lemma convert_json_leaves_no_float_witness :
  has_float (convert_floats_to_decimals (str_of_float sample_str) celtics) = false.
Proof.
  exact (convert_json_leaves_no_float (str_of_float sample_str) celtics eq_refl).
Defined.

(** ** The fetcher: what it logs and what it leaves alone *)

Section FetcherMore.
Variable E : env.
Variable self : NBAStatsPipeline.
Variable season : string.

Local Abbreviation url := (base_url self ++ "/scores/json/Standings/" ++ season).
Local Abbreviation fetching :=
  {| level := INFO; message := "Fetching data from API";
     extra := [("url", PStr url); ("season", PStr season)] |}.

(** Property X2.  Whatever the remote API does, [fetch_player_stats] changes
    nothing but the log (tables, submitted items and clock stay), and it adds
    exactly two records: the announcement of the request, with URL and
    season, and one record of the outcome. *)
Theorem fetch_player_stats_only_logs (w : world) :
  exists v outcome,
    fetch_player_stats E self season w = (Ret v, add_log outcome (add_log fetching w)).
Proof.
  unfold fetch_player_stats, try_except, bind, lift, raise_for_status,
    logger_info, logger_error, emit, ret, raise.
  destruct (requests_get E _ (api_key self)) as [r|e0]; cbn.
  - destruct ((400 <=? status_code r) && (status_code r <? 600)); cbn.
    + eauto.
    + destruct (json_body r) as [data|e1]; cbn.
      * destruct (py_len data) as [n|e2]; cbn.
        -- eauto.
        -- destruct (is_RequestException e2); cbn; eauto.
      * destruct (is_RequestException e1); cbn; eauto.
  - destruct (is_RequestException e0); cbn; eauto.
Qed.

(** Property X3.  A 4xx or 5xx answer is logged as "API request failed" with
    the URL and that status code; a request that raised a
    [RequestException] is logged the same way with the status of its
    response, [None] when there is none. *)
Theorem fetch_player_stats_logs_status (w : world) :
  (forall r,
      requests_get E url (api_key self) = Ret r ->
      error_status (status_code r) = true ->
      exists msg,
        fetch_player_stats E self season w =
        (Ret PNone,
         add_log {| level := ERROR; message := "API request failed";
                    extra := [("error", PStr msg); ("url", PStr url);
                              ("status_code", PInt (status_code r))] |}
           (add_log fetching w))) /\
  (forall e,
      requests_get E url (api_key self) = Raise e ->
      is_RequestException e = true ->
      fetch_player_stats E self season w =
      (Ret PNone,
       add_log {| level := ERROR; message := "API request failed";
                  extra := [("error", PStr (exn_str e)); ("url", PStr url);
                            ("status_code", response_status e)] |}
         (add_log fetching w))).
Proof.
  unfold fetch_player_stats, try_except, bind, lift, raise_for_status,
    error_status, logger_info, logger_error, emit, ret, raise.
  split.
  - intros r Hget Hst. rewrite Hget. cbn. rewrite Hst. cbn. eauto.
  - intros e Hget He. rewrite Hget. cbn. rewrite He. reflexivity.
Qed.

(** Property X4.  A body that parses to a value without a length (a JSON
    null, boolean or number) is not returned: [len(data)] raises, the
    fetcher logs "Unexpected error occurred" with the error type
    [TypeError], and returns [None]. *)
Theorem fetch_player_stats_unsized_body (w : world) (r : http_response)
    (data : pyval) :
  requests_get E url (api_key self) = Ret r ->
  error_status (status_code r) = false ->
  json_body r = Ret data ->
  sized data = false ->
  exists msg,
    fetch_player_stats E self season w =
    (Ret PNone,
     add_log {| level := ERROR; message := "Unexpected error occurred";
                extra := [("error", PStr msg); ("error_type", PStr "TypeError")] |}
       (add_log fetching w)).
Proof.
  intros Hget Hst Hjson Hsized.
  unfold fetch_player_stats, try_except, bind, lift, raise_for_status,
    logger_info, logger_error, emit, ret, raise.
  unfold error_status in Hst. rewrite Hget. cbn. rewrite Hst. cbn.
  rewrite Hjson. cbn.
  destruct data; try discriminate; cbn; eauto.
Qed.
End FetcherMore.

(** A 404 is logged with its status code. *)
Lemma fetch_player_stats_logs_status_witness :
  exists msg,
    fetch_player_stats (sample_env 404 (Ret PNone)) sample_pipeline "2024" new_world =
    (Ret PNone,
     add_log {| level := ERROR; message := "API request failed";
                extra := [("error", PStr msg);
                          ("url", PStr (base_url sample_pipeline
                                          ++ "/scores/json/Standings/" ++ "2024"));
                          ("status_code", PInt 404)] |}
       (add_log {| level := INFO; message := "Fetching data from API";
                   extra := [("url", PStr (base_url sample_pipeline
                                             ++ "/scores/json/Standings/" ++ "2024"));
                             ("season", PStr "2024")] |} new_world)).
Proof.
  exact (proj1 (fetch_player_stats_logs_status (sample_env 404 (Ret PNone))
                  sample_pipeline "2024" new_world) _ eq_refl eq_refl).
Defined.

(** A body holding the number 5. *)
Lemma fetch_player_stats_unsized_body_witness :
  exists msg,
    fetch_player_stats (sample_env 200 (Ret (PInt 5))) sample_pipeline "2024" new_world =
    (Ret PNone,
     add_log {| level := ERROR; message := "Unexpected error occurred";
                extra := [("error", PStr msg); ("error_type", PStr "TypeError")] |}
       (add_log {| level := INFO; message := "Fetching data from API";
                   extra := [("url", PStr (base_url sample_pipeline
                                             ++ "/scores/json/Standings/" ++ "2024"));
                             ("season", PStr "2024")] |} new_world)).
Proof.
  exact (fetch_player_stats_unsized_body (sample_env 200 (Ret (PInt 5)))
           sample_pipeline "2024" new_world _ (PInt 5) eq_refl eq_refl eq_refl eq_refl).
Defined.

(** ** Construction and provisioning *)

Section ProvisionMore.
Variable E : env.

(** Property X5.  The constructor fails only when [boto3.resource] does, and
    then with that exception.  A failure to set up CloudWatch logging is
    logged as an error and swallowed: the pipeline is built all the same,
    from the two environment variables and the fixed base URL, without
    touching tables or items. *)
Theorem new_NBAStatsPipeline_outcomes (w : world) :
  (resource_fault E = None ->
   exists w',
     new_NBAStatsPipeline E w =
     (Ret {| api_key := SPORTDATA_API_KEY E;
             base_url := "https://api.sportsdata.io/v3/nba";
             table_name := DYNAMODB_TABLE_NAME E |}, w') /\
     tables w' = tables w /\ submitted w' = submitted w) /\
  (forall e w', new_NBAStatsPipeline E w = (Raise e, w') -> resource_fault E = Some e) /\
  (forall e,
      cloudwatch_fault E = Some e ->
      exists rest,
        log (snd (new_NBAStatsPipeline E w)) =
        (log w ++
         {| level := ERROR;
            message := "Failed to set up CloudWatch logging: " ++ exn_str e;
            extra := [] |} :: rest)%list).
Proof.
  unfold new_NBAStatsPipeline, setup_logger, boto3_resource, try_except, bind,
    datetime_now, logger_info, logger_error, emit, ret, raise.
  destruct (cloudwatch_fault E) as [ec|]; destruct (resource_fault E) as [er|]; cbn;
    repeat split; intros; try discriminate; try congruence; eauto.
  - injection H as ->. cbn. eexists. reflexivity.
  - injection H as ->. cbn. eexists.
    rewrite <- app_assoc. reflexivity.
Qed.

(** Property X6.  With a table name and a store that answers, the table is
    in the store after [setup_dynamodb_table], whatever the outcome: a table
    that was there is left as it was, a table that was not is added, and it
    stays added when the wait that follows the creation fails.  No other
    table and no item is touched. *)
Theorem setup_dynamodb_table_ensures_table (self : NBAStatsPipeline) (n : string)
    (w : world) :
  table_name self = Some n ->
  create_fault E = None ->
  existsb (String.eqb n) (tables (snd (setup_dynamodb_table E self w))) = true /\
  (existsb (String.eqb n) (tables w) = true ->
   tables (snd (setup_dynamodb_table E self w)) = tables w) /\
  (existsb (String.eqb n) (tables w) = false ->
   tables (snd (setup_dynamodb_table E self w)) = (tables w ++ [n])%list) /\
  submitted (snd (setup_dynamodb_table E self w)) = submitted w.
Proof.
  intros Hn Hc.
  unfold setup_dynamodb_table, create_table_and_wait, try_except, bind,
    create_table, wait_table_exists, dynamodb_Table, logger_info, logger_error,
    emit, ret, raise.
  rewrite Hn, Hc. cbn.
  destruct (existsb (String.eqb n) (tables w)) eqn:Hex; cbn.
  - rewrite Hex. repeat split; intros; try discriminate; reflexivity.
  - destruct (waiter_fault E) as [e1|]; cbn.
    + destruct (is_ResourceInUseException e1); cbn;
        rewrite existsb_eqb_last; repeat split; intros; try discriminate; reflexivity.
    + rewrite existsb_eqb_last. repeat split; intros; try discriminate; reflexivity.
Qed.
End ProvisionMore.

(** CloudWatch is out of reach in this environment; the pipeline is built. *)
Lemma new_NBAStatsPipeline_outcomes_witness :
  exists w',
    new_NBAStatsPipeline (refusing_env 200 (Ret PNone)) new_world =
    (Ret sample_pipeline, w') /\
    tables w' = tables new_world /\ submitted w' = submitted new_world.
Proof.
  exact (proj1 (new_NBAStatsPipeline_outcomes (refusing_env 200 (Ret PNone)) new_world)
           eq_refl).
Defined.

(** The first call in an empty store adds the table. *)
Lemma setup_dynamodb_table_ensures_table_witness :
  tables (snd (setup_dynamodb_table (sample_env 200 (Ret PNone)) sample_pipeline
                 new_world))
  = ["nba-stats"].
Proof.
  exact (proj1 (proj2 (proj2 (setup_dynamodb_table_ensures_table
                                (sample_env 200 (Ret PNone)) sample_pipeline
                                "nba-stats" new_world eq_refl eq_refl)))
           eq_refl).
Defined.

(** ** The persister: every outcome *)

Lemma py_getitem_ret (v : pyval) (name : string) (x : pyval) :
  py_getitem v name = Ret x ->
  exists d, v = PDict d /\ dict_get d name = Some x.
Proof.
  destruct v; try discriminate. cbn.
  destruct (dict_get d name) as [y|] eqn:Hy; [|discriminate].
  intro H. injection H as <-. eauto.
Qed.

Section PersisterMore.
Variable py_str : pyval -> string.
Variable E : env.

(** Reading fields changes nothing; when it succeeds, each name is in the
    record and in the result, with the same value. *)
Lemma read_fields_outcome (names : list string) (d : list (pykey * pyval)) :
  forall w r w',
    read_fields names (PDict d) w = (r, w') ->
    w' = w /\
    forall l, r = Ret l ->
      forallb (present d) names = true /\
      forall name, In name names ->
        exists x, dict_get d name = Some x /\ dict_get l name = Some x.
Proof.
  induction names as [|n rest IH]; intros w r w' H.
  - cbn in H. injection H as <- <-. split; [reflexivity|].
    intros l Hl. split; [reflexivity|]. intros name [].
  - cbn [read_fields] in H. unfold bind, lift, py_getitem in H.
    unfold present at 1. cbn [forallb].
    destruct (dict_get d n) as [v|] eqn:Hv.
    + destruct (read_fields rest (PDict d) w) as [[l0|e] w0] eqn:Hrest.
      * destruct (IH _ _ _ Hrest) as [-> Hl0].
        destruct (Hl0 l0 eq_refl) as [Hall Hin].
        cbn in H. injection H as <- <-. split; [reflexivity|].
        intros l Hl. injection Hl as <-.
        split; [exact Hall|].
        intros name [<-|Hname].
        -- exists v. split; [exact Hv|]. cbn. now rewrite String.eqb_refl.
        -- cbn. destruct (String.eqb n name) eqn:Heq.
           ++ apply String.eqb_eq in Heq. subst. eauto.
           ++ now apply Hin.
      * destruct (IH _ _ _ Hrest) as [-> _].
        injection H as <- <-. split; [reflexivity|]. discriminate.
    + injection H as <- <-. split; [reflexivity|]. discriminate.
Qed.

Lemma dict_get_json_shaped (d : list (pykey * pyval)) (name : string) (x : pyval) :
  json_shaped (PDict d) = true -> dict_get d name = Some x -> json_shaped x = true.
Proof.
  induction d as [|[k y] r IH]; [discriminate|].
  cbn. intros H Hx. apply andb_prop in H as [H1 H2].
  apply andb_prop in H1 as [_ H1].
  destruct (key_is name k); [now injection Hx as <-|exact (IH H2 Hx)].
Qed.

(** The fields read have string keys and values taken from the record. *)
Lemma read_fields_shape (names : list string) (d : list (pykey * pyval)) :
  forall w l w',
    read_fields names (PDict d) w = (Ret l, w') ->
    Forall (fun kv : pykey * pyval =>
              key_is_str (fst kv) = true /\
              exists name, dict_get d name = Some (snd kv)) l.
Proof.
  induction names as [|n rest IH]; intros w l w' H.
  - cbn in H. injection H as <- _. constructor.
  - cbn [read_fields] in H. unfold bind, lift, py_getitem in H.
    destruct (dict_get d n) as [v|] eqn:Hv; [|discriminate].
    destruct (read_fields rest (PDict d) w) as [[l0|e] w0] eqn:Hrest;
      [|discriminate].
    cbn in H. injection H as <- _. constructor.
    + split; [reflexivity|]. exists n. exact Hv.
    + exact (IH _ _ _ Hrest).
Qed.

(** The item built for a record: a record that gives one carries the
    required fields, the clock is read once, and the item is the one
    [stored_for] describes; a record that gives none leaves the world as it
    was. *)
Lemma team_item_outcome (timestamp : string) (team : pyval) (w : world) :
  match team_item py_str E timestamp team w with
  | (Ret item, w') =>
      carries_required_fields team = true /\
      w' = snd (datetime_now w) /\
      stored_for py_str E timestamp (ticks w) team item
  | (Raise _, w') => w' = w
  end.
Proof.
  unfold team_item, bind, lift.
  destruct (py_getitem team "TeamID") as [v1|] eqn:E1; [|reflexivity].
  destruct (py_getitem_ret _ _ _ E1) as (d & -> & D1).
  unfold py_getitem.
  destruct (dict_get d "Key") as [v2|] eqn:D2; [|reflexivity].
  destruct (dict_get d "City") as [v3|] eqn:D3; [|reflexivity].
  destruct (dict_get d "Name") as [v4|] eqn:D4; [|reflexivity].
  destruct (dict_get d "Conference") as [v5|] eqn:D5; [|reflexivity].
  destruct (dict_get d "Division") as [v6|] eqn:D6; [|reflexivity].
  destruct (read_fields stats_fields (PDict d) w) as [[l|e] w0] eqn:Hl;
    destruct (read_fields_outcome _ _ _ _ _ Hl) as [-> Hstats];
    [|reflexivity].
  destruct (Hstats l eq_refl) as [Hall Hin].
  unfold datetime_now, ret. split; [|split; [reflexivity|]].
  - unfold carries_required_fields, required_fields. rewrite forallb_app, Hall.
    cbn [forallb]. unfold present. now rewrite D1, D2, D3, D4, D5, D6.
  - unfold stored_for, item_of_team, city_and_name, field.
    rewrite D1, D2, D3, D4, D5, D6.
    split; [split; reflexivity|].
    repeat (split; [reflexivity|]).
    split.
    { intro Hjson. eexists. split; [reflexivity|].
      apply convert_json_no_float. cbn [json_shaped].
      apply forallb_forall. intros [k x] Hkx.
      pose proof (read_fields_shape _ _ _ _ _ Hl) as Hshape.
      rewrite Forall_forall in Hshape.
      destruct (Hshape _ Hkx) as (Hk & name & Hx). cbn [fst snd] in Hk, Hx.
      rewrite Hk. exact (dict_get_json_shaped _ _ _ Hjson Hx). }
    intros name Hname. destruct (Hin name Hname) as (x & Hd & Hx).
    exists x. split; [exact Hd|].
    change (field name (convert_floats_to_decimals (str_of_float py_str) (PDict l))
            = Some (convert_floats_to_decimals (str_of_float py_str) x)).
    rewrite field_convert. unfold field. now rewrite Hx.
Qed.
End PersisterMore.

Section PersisterOutcomes.
Variable py_str : pyval -> string.
Variable E : env.

(** One turn of the loop: it hands over exactly one item, made for its
    record, or it raises and hands over nothing. *)
Lemma put_team_outcome (timestamp : string) (team : pyval) (w : world) :
  forall r w',
    put_team py_str E timestamp team w = (r, w') ->
    tables w' = tables w /\
    match r with
    | Ret _ =>
        carries_required_fields team = true /\
        ticks w' = S (ticks w) /\
        exists item,
          stored_for py_str E timestamp (ticks w) team item /\
          submitted w' = (submitted w ++ [item])%list
    | Raise _ => submitted w' = submitted w
    end.
Proof.
  intros r w'. unfold put_team, bind.
  pose proof (team_item_outcome py_str E timestamp team w) as H.
  destruct (team_item py_str E timestamp team w) as [[item|e] w1].
  - destruct H as (Hc & -> & Hs). unfold lift.
    destruct (py_getitem item "TeamName") as [name|e].
    + unfold logger_info, emit, batch_put_item. cbn.
      destruct (put_fault E (submitted w) item); intro Hr; injection Hr as <- <-;
        cbn; repeat split; eauto.
    + intro Hr. injection Hr as <- <-. split; reflexivity.
  - subst w1. intro Hr. injection Hr as <- <-. split; reflexivity.
Qed.

(** The loop: the items handed over are those of the first [k] records, in
    order, each at its own clock reading; [k] is all of them when the loop
    ends normally. *)
Lemma put_team_loop_outcome (timestamp : string) (teams : list pyval) :
  forall w r w',
    for_each teams (put_team py_str E timestamp) w = (r, w') ->
    tables w' = tables w /\
    exists k items,
      (k <= List.length teams)%nat /\
      submitted w' = (submitted w ++ items)%list /\
      each_stored py_str E timestamp (ticks w) (firstn k teams) items /\
      (r = Ret tt ->
       k = List.length teams /\
       Forall (fun team => carries_required_fields team = true) teams /\
       ticks w' = (ticks w + List.length teams)%nat).
Proof.
  induction teams as [|team rest IH]; intros w r w' H.
  - cbn in H. injection H as <- <-. split; [reflexivity|].
    exists 0%nat, []. cbn. rewrite app_nil_r.
    repeat split; auto.
  - cbn [for_each] in H. unfold bind in H.
    destruct (put_team py_str E timestamp team w) as [[u|e] w1] eqn:Hput;
      destruct (put_team_outcome _ _ _ _ _ Hput) as [Htab Hone].
    + destruct Hone as (Hc & Htick & item & Hs & Hsub).
      destruct (IH _ _ _ H) as (Htab' & k & items & Hk & Hsub' & Heach & Hret).
      split; [congruence|].
      exists (S k), (item :: items).
      split; [cbn; lia|].
      split; [rewrite Hsub', Hsub, <- app_assoc; reflexivity|].
      split; [cbn [firstn each_stored]; split; [exact Hs|]; rewrite <- Htick; exact Heach|].
      intro Hr. destruct (Hret Hr) as (Hk' & Hall & Ht).
      split; [cbn; congruence|].
      split; [constructor; assumption|].
      rewrite Ht, Htick. cbn. lia.
    + injection H as <- <-. split; [exact Htab|].
      exists 0%nat, []. cbn. rewrite app_nil_r.
      split; [lia|]. split; [exact Hone|]. split; [exact I|]. discriminate.
Qed.
End PersisterOutcomes.

Section PersisterTheorems.
Variable py_str : pyval -> string.
Variable E : env.

(** [store_team_stats] in every outcome: tables stay; the items handed over
    are those of the first [k] of the values iterated, in order, with the
    batch timestamp read first and one reading for each item after it; a
    normal return means all of them. *)
Lemma store_team_stats_outcome (self : NBAStatsPipeline) (stats : pyval)
    (w : world) :
  forall r w',
    store_team_stats py_str E self stats w = (r, w') ->
    tables w' = tables w /\
    exists items,
      submitted w' = (submitted w ++ items)%list /\
      match py_iter stats with
      | Ret teams =>
          exists k,
            (k <= List.length teams)%nat /\
            each_stored py_str E (isoformat E (ticks w)) (S (ticks w))
              (firstn k teams) items /\
            (r = Ret tt ->
             k = List.length teams /\
             Forall (fun team => carries_required_fields team = true) teams /\
             ticks w' = (ticks w + 1 + List.length teams)%nat)
      | Raise _ => items = [] /\ r <> Ret tt
      end.
Proof.
  intros r w'.
  unfold store_team_stats, try_except, bind, dynamodb_Table.
  destruct (table_name self) as [n|].
  2:{ cbn. intro H. injection H as <- <-. split; [reflexivity|].
      exists []. rewrite app_nil_r. split; [reflexivity|].
      destruct (py_iter stats).
      - exists 0%nat. cbn. split; [lia|]. split; [exact I|]. discriminate.
      - split; [reflexivity|]. discriminate. }
  unfold ret, datetime_now, logger_info, logger_error, emit, with_batch_writer,
    lift, raise.
  destruct (py_iter stats) as [teams|e0] eqn:Hiter.
  2:{ cbn. rewrite Nat.eqb_refl. cbn. intro H. injection H as <- <-.
      split; [reflexivity|]. exists []. rewrite app_nil_r.
      split; [reflexivity|]. split; [reflexivity|]. discriminate. }
  match goal with
  | |- context [for_each teams ?b ?w1] =>
      destruct (for_each teams b w1) as [r1 w2] eqn:Hloop;
      destruct (put_team_loop_outcome py_str E _ _ _ _ _ Hloop)
        as (Htab & k & items & Hk & Hsub & Heach & Hret)
  end.
  cbn in Htab, Hsub, Heach, Hret.
  assert (Hlen : exists n, py_len stats = Ret n)
    by (destruct stats; try discriminate; cbn; eauto).
  destruct Hlen as [len Hlen]. rewrite Hlen.
  assert (Hgoal : forall r0, (r0 = Ret tt -> r1 = Ret tt) ->
            forall w0, tables w0 = tables w2 -> submitted w0 = submitted w2 ->
                       ticks w0 = ticks w2 ->
            (r0, w0) = (r, w') ->
            tables w' = tables w /\
            exists items0,
              submitted w' = (submitted w ++ items0)%list /\
              exists k0,
                (k0 <= List.length teams)%nat /\
                each_stored py_str E (isoformat E (ticks w)) (S (ticks w))
                  (firstn k0 teams) items0 /\
                (r = Ret tt ->
                 k0 = List.length teams /\
                 Forall (fun team => carries_required_fields team = true) teams /\
                 ticks w' = (ticks w + 1 + List.length teams)%nat)).
  { intros r0 Hr0 w0 Ht Hs Hc H. injection H as <- <-.
    split; [congruence|]. exists items. split; [congruence|].
    exists k. split; [exact Hk|]. split; [exact Heach|].
    intro Hr. destruct (Hret (Hr0 Hr)) as (Hk' & Hall & Htk).
    split; [exact Hk'|]. split; [exact Hall|]. rewrite Hc, Htk. lia. }
  destruct (_ =? _)%nat; [|destruct (exit_fault E (submitted w2))];
    destruct r1 as [[]|e1]; cbn;
    apply Hgoal; try reflexivity; try discriminate; auto.
Qed.
Lemma each_stored_length (timestamp : string) (teams : list pyval) :
  forall reading items,
    each_stored py_str E timestamp reading teams items ->
    List.length items = List.length teams.
Proof.
  induction teams as [|team rest IH]; intros reading [|item items] H;
    try contradiction; [reflexivity|].
  destruct H as [_ H]. cbn. f_equal. exact (IH _ _ H).
Qed.

(** Property X7.  Whatever happens during a batch (a record without a
    field, a write the store refuses, a failing flush), what
    [store_team_stats] has handed to the store is never taken back and never
    out of order: the items are those of the first [k] records, one for
    each, in the records' order, and no table is touched. *)
Theorem store_team_stats_never_rolls_back (self : NBAStatsPipeline)
    (teams : list pyval) (w : world) :
  tables (snd (store_team_stats py_str E self (PList teams) w)) = tables w /\
  exists k items,
    (k <= List.length teams)%nat /\
    List.length items = k /\
    submitted (snd (store_team_stats py_str E self (PList teams) w))
    = (submitted w ++ items)%list /\
    each_stored py_str E (isoformat E (ticks w)) (S (ticks w)) (firstn k teams) items.
Proof.
  destruct (store_team_stats py_str E self (PList teams) w) as [r w'] eqn:Hrun.
  destruct (store_team_stats_outcome _ _ _ _ _ Hrun)
    as (Htab & items & Hsub & k & Hk & Heach & _).
  split; [exact Htab|]. exists k, items.
  split; [exact Hk|]. split; [|split; assumption].
  rewrite (each_stored_length _ _ _ _ Heach). apply firstn_length_le. exact Hk.
Qed.

(** Property X8.  When [store_team_stats] returns normally for a list of
    records, every record carried the required fields (so one that lacks a
    field makes the call raise), every record got its item, and the clock was
    read once for the batch and once more for each item: an item's
    [LastUpdated] is a later reading than the [Timestamp] it shares with the
    others. *)
Theorem store_team_stats_normal_return (self : NBAStatsPipeline)
    (teams : list pyval) (w w' : world) :
  store_team_stats py_str E self (PList teams) w = (Ret tt, w') ->
  Forall (fun team => carries_required_fields team = true) teams /\
  ticks w' = (ticks w + 1 + List.length teams)%nat /\
  exists items,
    submitted w' = (submitted w ++ items)%list /\
    each_stored py_str E (isoformat E (ticks w)) (S (ticks w)) teams items.
Proof.
  intro Hrun.
  destruct (store_team_stats_outcome _ _ _ _ _ Hrun)
    as (_ & items & Hsub & k & Hk & Heach & Hret).
  destruct (Hret eq_refl) as (-> & Hall & Htick).
  split; [exact Hall|]. split; [exact Htick|].
  exists items. split; [exact Hsub|].
  cbn in Heach. now rewrite firstn_all in Heach.
Qed.

(** Property X9.  Every exception that leaves [store_team_stats] is the one
    just logged: the last record of the log is the error "Failed to store
    team stats" with the exception's text and the name of its type. *)
Theorem store_team_stats_logs_what_it_raises (self : NBAStatsPipeline)
    (stats : pyval) (w w' : world) (e : exn) :
  store_team_stats py_str E self stats w = (Raise e, w') ->
  last_logged w' =
  Some {| level := ERROR; message := "Failed to store team stats";
          extra := [("error", PStr (exn_str e));
                    ("error_type", PStr (exn_type_name e))] |}.
Proof.
  unfold store_team_stats, try_except.
  match goal with
  | |- context [match ?b w with _ => _ end] => destruct (b w) as [[u|e0] w0]
  end.
  - discriminate.
  - unfold bind, logger_error, emit, raise. intro H. injection H as <- <-.
    unfold last_logged, add_log. cbn [log]. now rewrite rev_unit.
Qed.
Lemma read_fields_missing (names : list string) (d : list (pykey * pyval))
    (name : string) (w : world) :
  find (fun f => negb (present d f)) names = Some name ->
  read_fields names (PDict d) w = (Raise (KeyError name), w).
Proof.
  induction names as [|f rest IH]; [discriminate|].
  cbn [find read_fields]. unfold bind, lift, py_getitem, present at 1.
  destruct (dict_get d f) as [v|]; cbn.
  - intro H. now rewrite (IH H).
  - intro H. injection H as <-. reflexivity.
Qed.

Lemma team_item_missing (timestamp : string) (d : list (pykey * pyval))
    (name : string) (w : world) :
  find (fun f => negb (present d f)) required_fields = Some name ->
  team_item py_str E timestamp (PDict d) w = (Raise (KeyError name), w).
Proof.
  unfold required_fields. cbn [app find]. unfold present at 1 2 3 4 5 6.
  unfold team_item, bind, lift, py_getitem.
  destruct (dict_get d "TeamID"); cbn [negb]; [|intro H; injection H as <-; reflexivity].
  destruct (dict_get d "Key"); cbn [negb]; [|intro H; injection H as <-; reflexivity].
  destruct (dict_get d "City"); cbn [negb]; [|intro H; injection H as <-; reflexivity].
  destruct (dict_get d "Name"); cbn [negb]; [|intro H; injection H as <-; reflexivity].
  destruct (dict_get d "Conference"); cbn [negb];
    [|intro H; injection H as <-; reflexivity].
  destruct (dict_get d "Division"); cbn [negb];
    [|intro H; injection H as <-; reflexivity].
  intro H. now rewrite (read_fields_missing _ _ _ _ H).
Qed.

(** Property X10.  When the first record is a dict that lacks a required
    field, [store_team_stats] raises [KeyError] for the first such field in
    the order the code reads them (TeamID, Key, City, Name, Conference,
    Division, then the eleven figures), and hands nothing to the store: the
    records after it are not looked at. *)
Theorem store_team_stats_missing_field (self : NBAStatsPipeline) (n : string)
    (d : list (pykey * pyval)) (rest : list pyval) (name : string) (w : world) :
  table_name self = Some n ->
  find (fun f => negb (present d f)) required_fields = Some name ->
  fst (store_team_stats py_str E self (PList (PDict d :: rest)) w)
  = Raise (KeyError name) /\
  submitted (snd (store_team_stats py_str E self (PList (PDict d :: rest)) w))
  = submitted w.
Proof.
  intros Hn Hfind.
  unfold store_team_stats, try_except, bind, dynamodb_Table. rewrite Hn.
  unfold ret, datetime_now, logger_info, logger_error, emit, with_batch_writer,
    lift, raise, py_iter.
  cbn [for_each]. unfold bind, put_team, bind.
  rewrite (team_item_missing _ _ _ _ Hfind).
  cbn. rewrite Nat.eqb_refl. split; reflexivity.
Qed.
End PersisterTheorems.

(** A record with nothing but its [TeamID]: the first field missed is
    [Key]. *)
Lemma store_team_stats_missing_field_witness :
  fst (store_team_stats sample_str (sample_env 200 (Ret PNone)) sample_pipeline
         (PList [PDict [(KStr "TeamID", PInt 1)]; celtics]) new_world)
  = Raise (KeyError "Key") /\
  submitted (snd (store_team_stats sample_str (sample_env 200 (Ret PNone))
                    sample_pipeline
                    (PList [PDict [(KStr "TeamID", PInt 1)]; celtics]) new_world))
  = submitted new_world.
Proof.
  exact (store_team_stats_missing_field sample_str (sample_env 200 (Ret PNone))
           sample_pipeline "nba-stats" [(KStr "TeamID", PInt 1)] [celtics] "Key"
           new_world eq_refl eq_refl).
Defined.

(** The Celtics record alone, stored without failure. *)
Lemma store_team_stats_normal_return_witness :
  Forall (fun team => carries_required_fields team = true) [celtics] /\
  ticks (snd (store_team_stats sample_str (sample_env 200 (Ret PNone)) sample_pipeline
                (PList [celtics]) new_world))
  = (ticks new_world + 1 + List.length [celtics])%nat /\
  exists items,
    submitted (snd (store_team_stats sample_str (sample_env 200 (Ret PNone))
                      sample_pipeline (PList [celtics]) new_world))
    = (submitted new_world ++ items)%list /\
    each_stored sample_str (sample_env 200 (Ret PNone))
      (isoformat (sample_env 200 (Ret PNone)) (ticks new_world))
      (S (ticks new_world)) [celtics] items.
Proof.
  exact (store_team_stats_normal_return sample_str (sample_env 200 (Ret PNone))
           sample_pipeline [celtics] new_world _ eq_refl).
Defined.

(** A store that refuses the first write: the refusal is what is logged
    last. *)
Lemma store_team_stats_logs_what_it_raises_witness :
  last_logged (snd (store_team_stats sample_str (refusing_env 200 (Ret PNone))
                      sample_pipeline (PList [celtics]) new_world))
  = Some {| level := ERROR; message := "Failed to store team stats";
            extra := [("error", PStr "throughput exceeded");
                      ("error_type", PStr "ClientError")] |}.
Proof.
  exact (store_team_stats_logs_what_it_raises sample_str (refusing_env 200 (Ret PNone))
           sample_pipeline (PList [celtics]) new_world _
           (OtherException "ClientError" "throughput exceeded") eq_refl).
Defined.

(** ** The entry point: what a result tells *)

Section HandlerMore.
Variable py_str : pyval -> string.
Variable E : env.

Lemma new_NBAStatsPipeline_frame (w : world) :
  tables (snd (new_NBAStatsPipeline E w)) = tables w /\
  submitted (snd (new_NBAStatsPipeline E w)) = submitted w.
Proof.
  unfold new_NBAStatsPipeline, setup_logger, boto3_resource, try_except, bind,
    datetime_now, logger_info, logger_error, emit, ret, raise.
  destruct (cloudwatch_fault E); destruct (resource_fault E); split; reflexivity.
Qed.

Lemma setup_dynamodb_table_frame (self : NBAStatsPipeline) (w : world) :
  submitted (snd (setup_dynamodb_table E self w)) = submitted w.
Proof.
  unfold setup_dynamodb_table, create_table_and_wait, try_except, bind,
    create_table, wait_table_exists, dynamodb_Table, logger_info, logger_error,
    emit, ret, raise.
  destruct (table_name self) as [n|]; [|reflexivity].
  destruct (create_fault E) as [e0|]; cbn.
  - destruct (is_ResourceInUseException e0); reflexivity.
  - destruct (existsb (String.eqb n) (tables w)); cbn; [reflexivity|].
    destruct (waiter_fault E) as [e1|]; cbn; [|reflexivity].
    destruct (is_ResourceInUseException e1); reflexivity.
Qed.

Lemma fetch_player_stats_frame (self : NBAStatsPipeline) (season : string)
    (w : world) :
  tables (snd (fetch_player_stats E self season w)) = tables w /\
  submitted (snd (fetch_player_stats E self season w)) = submitted w.
Proof.
  unfold fetch_player_stats, try_except, bind, lift, raise_for_status,
    logger_info, logger_error, emit, ret, raise.
  destruct (requests_get E _ (api_key self)) as [r|e0]; cbn.
  - destruct ((400 <=? status_code r) && (status_code r <? 600)); cbn.
    + split; reflexivity.
    + destruct (json_body r) as [data|e1]; cbn.
      * destruct (py_len data) as [n|e2]; cbn.
        -- split; reflexivity.
        -- destruct (is_RequestException e2); split; reflexivity.
      * destruct (is_RequestException e1); split; reflexivity.
  - destruct (is_RequestException e0); split; reflexivity.
Qed.

(** A value that is true and can be iterated has a first element. *)
Lemma truthy_iter_nonempty (stats : pyval) (teams : list pyval) :
  truthy stats = true -> py_iter stats = Ret teams -> teams <> [].
Proof.
  destruct stats as [ | | | | s | | l | l | d]; try discriminate; cbn;
    intros Ht Hi; injection Hi as <-.
  - destruct s; [discriminate|]. discriminate.
  - destruct l; [discriminate|]. discriminate.
  - destruct l; [discriminate|]. discriminate.
  - destruct d; [discriminate|]. discriminate.
Qed.

(** Property X11.  A result with status 200 is never empty-handed: when the
    handler answers 200, at least one item was handed to the store during
    this invocation. *)
Theorem lambda_handler_success_wrote (event context : pyval) (w w' : world)
    (r : response) :
  lambda_handler py_str E event context w = (Ret r, w') ->
  statusCode r = 200 ->
  (List.length (submitted w) < List.length (submitted w'))%nat.
Proof.
  rewrite lambda_handler_stages.
  pose proof (new_NBAStatsPipeline_frame w) as [_ H1].
  destruct (new_NBAStatsPipeline E w) as [[p|e] w1];
    [|intro H; injection H as <- <-; discriminate].
  pose proof (setup_dynamodb_table_frame p w1) as H2.
  destruct (setup_dynamodb_table E p w1) as [[t|e] w2];
    [|intro H; injection H as <- <-; discriminate].
  pose proof (fetch_player_stats_frame p "2024" w2) as [_ H3].
  destruct (fetch_player_stats E p "2024" w2) as [[stats|e] w3];
    [|intro H; injection H as <- <-; discriminate].
  destruct (truthy stats) eqn:Hdata;
    [|intro H; injection H as <- <-; discriminate].
  destruct (store_team_stats py_str E p stats w3) as [[[]|e] w4] eqn:Hstore;
    [|intro H; injection H as <- <-; discriminate].
  intros H _. injection H as _ <-.
  destruct (store_team_stats_outcome _ _ _ _ _ _ _ Hstore) as (_ & items & Hsub & Hit).
  cbn [snd] in H1, H2, H3.
  destruct (py_iter stats) as [teams|e] eqn:Hiter.
  - destruct Hit as (k & _ & Heach & Hret).
    destruct (Hret eq_refl) as (-> & _ & _).
    rewrite firstn_all in Heach.
    apply each_stored_length in Heach.
    pose proof (truthy_iter_nonempty _ _ Hdata Hiter) as Hne.
    rewrite Hsub, length_app, Heach, H3, H2, H1.
    destruct teams; [congruence|cbn; lia].
  - destruct Hit as [_ Hr]. congruence.
Qed.
Lemma each_stored_dicts (timestamp : string) (reading : nat)
    (team item : pyval) (teams items : list pyval) :
  each_stored py_str E timestamp reading (team :: teams) (item :: items) ->
  is_dict team = true.
Proof.
  intros [Hs _]. destruct Hs as (_ & _ & _ & _ & _ & _ & _ & Hstats).
  destruct (Hstats "Wins") as (x & Hx & _); [now left|].
  destruct team; try discriminate. reflexivity.
Qed.

(** Property X12.  When the remote API answers with a JSON object instead of
    an array (an error document, say), the fetcher returns it, the handler
    takes it for data, the persister raises on its first key, and the
    handler answers 500 with "Error: " and the text of that exception;
    nothing is handed to the store. *)
Theorem lambda_handler_object_answer (event context : pyval) (w w1 w2 w3 : world)
    (p : NBAStatsPipeline) (t : table) (k : pykey) (x : pyval)
    (d : list (pykey * pyval)) :
  new_NBAStatsPipeline E w = (Ret p, w1) ->
  setup_dynamodb_table E p w1 = (Ret t, w2) ->
  fetch_player_stats E p "2024" w2 = (Ret (PDict ((k, x) :: d)), w3) ->
  exists e w4,
    lambda_handler py_str E event context w =
    (Ret {| statusCode := 500; body := json_dumps ("Error: " ++ exn_str e) |}, w4) /\
    store_team_stats py_str E p (PDict ((k, x) :: d)) w3 = (Raise e, w4) /\
    submitted w4 = submitted w3.
Proof.
  intros Hinit Hsetup Hfetch.
  rewrite lambda_handler_stages, Hinit, Hsetup, Hfetch. cbn [truthy].
  destruct (store_team_stats py_str E p (PDict ((k, x) :: d)) w3) as [r w4] eqn:Hstore.
  destruct (store_team_stats_outcome _ _ _ _ _ _ _ Hstore)
    as (_ & items & Hsub & n & _ & Heach & Hret).
  cbn [py_iter map fst] in Heach, Hret.
  assert (Hr : r <> Ret tt).
  { intro Hr. destruct (Hret Hr) as (_ & Hall & _).
    inversion Hall as [|? ? Hc _]; subst. destruct k; discriminate. }
  assert (Hitems : items = []).
  { destruct n as [|n]; destruct items as [|item items]; try contradiction;
      [reflexivity|].
    cbn [firstn] in Heach. apply each_stored_dicts in Heach.
    destruct k; discriminate. }
  subst items. rewrite app_nil_r in Hsub.
  destruct r as [[]|e]; [congruence|].
  exists e, w4. repeat split. exact Hsub.
Qed.

(** Property X13.  Failures of provisioning are final.  When
    [boto3.resource] fails, or when the creation of the configured table
    fails with anything but "already exists", the handler answers 500 with
    "Error: " and the text of that very exception, and it leaves the store
    as it found it: no table is added, no item is handed over. *)
Theorem lambda_handler_provisioning_failure (event context : pyval) (w : world)
    (e : exn) :
  (resource_fault E = Some e \/
   (resource_fault E = None /\ DYNAMODB_TABLE_NAME E <> None /\
    create_fault E = Some e /\ is_ResourceInUseException e = false)) ->
  exists w',
    lambda_handler py_str E event context w =
    (Ret {| statusCode := 500; body := json_dumps ("Error: " ++ exn_str e) |}, w') /\
    tables w' = tables w /\ submitted w' = submitted w.
Proof.
  unfold lambda_handler, new_NBAStatsPipeline, setup_logger, boto3_resource,
    setup_dynamodb_table, create_table_and_wait, create_table, try_except, bind,
    datetime_now, logger_info, logger_error, emit, ret, raise.
  intros [Hr | (Hr & Hn & Hc & He)]; rewrite Hr.
  - destruct (cloudwatch_fault E); cbn; eexists; repeat split.
  - destruct (DYNAMODB_TABLE_NAME E) as [n|] eqn:Hname; [|congruence].
    destruct (cloudwatch_fault E); cbn; rewrite Hc; cbn; rewrite He; cbn;
      eexists; repeat split.
Qed.
End HandlerMore.

(** The remote API answers 200 with [{"message": "quota"}]. *)
Lemma lambda_handler_object_answer_witness :
  exists e w4,
    lambda_handler sample_str
      (sample_env 200 (Ret (PDict [(KStr "message", PStr "quota")])))
      PNone PNone new_world =
    (Ret {| statusCode := 500; body := json_dumps ("Error: " ++ exn_str e) |}, w4) /\
    submitted w4 = [].
Proof.
  pose proof (lambda_handler_object_answer sample_str
                (sample_env 200 (Ret (PDict [(KStr "message", PStr "quota")])))
                PNone PNone new_world) as H.
  specialize (H _ _ _ _ _ _ _ _ ltac:(lazy; reflexivity) ltac:(lazy; reflexivity)
                ltac:(lazy; reflexivity)).
  destruct H as (e & w4 & Hh & _ & Hs).
  exists e, w4. split; [exact Hh | exact Hs].
Defined.

(** The store refuses the creation of the table. *)
Lemma lambda_handler_provisioning_failure_witness :
  exists w',
    lambda_handler sample_str
      {| SPORTDATA_API_KEY := Some "key"; DYNAMODB_TABLE_NAME := Some "nba-stats";
         isoformat := fun _ => "now"; cloudwatch_fault := None;
         resource_fault := None;
         create_fault := Some (OtherException "ClientError" "AccessDenied");
         waiter_fault := None;
         requests_get := fun _ _ => Raise (OtherException "Unreachable" "-");
         put_fault := fun _ _ => None; exit_fault := fun _ => None |}
      PNone PNone new_world =
    (Ret {| statusCode := 500; body := json_dumps ("Error: " ++ "AccessDenied") |}, w') /\
    tables w' = tables new_world /\ submitted w' = submitted new_world.
Proof.
  refine (lambda_handler_provisioning_failure sample_str _ PNone PNone new_world
            (OtherException "ClientError" "AccessDenied") _).
  right. repeat split. discriminate.
Defined.

(** ** [main] *)

Section MainFacts.
Variable py_str : pyval -> string.
Variable E : env.
Variable json_dumps_indent : pyval -> result string.

(** Property X14.  [main] never raises, whatever the collaborators do and
    whatever the serializer of the sample does; and it leaves the world
    (tables, items handed to the store, log of the pipeline, clock) exactly
    as [lambda_handler] leaves it: the two entry points run the same
    stages. *)
Theorem main_never_raises (event context : pyval) (c : console) :
  exists c',
    main py_str E json_dumps_indent c = (Ret tt, c') /\
    the_world c' = snd (lambda_handler py_str E event context (the_world c)).
Proof.
  rewrite lambda_handler_stages.
  unfold main, c_try, c_bind, in_world, print, logging_error, c_lift.
  destruct (new_NBAStatsPipeline E (the_world c)) as [[p|e] w1]; cbn;
    [|eexists; split; reflexivity].
  destruct (setup_dynamodb_table E p w1) as [[t|e] w2]; cbn;
    [|eexists; split; reflexivity].
  destruct (fetch_player_stats E p "2024" w2) as [[stats|e] w3]; cbn;
    [|eexists; split; reflexivity].
  destruct (truthy stats); cbn; [|eexists; split; reflexivity].
  destruct (store_team_stats py_str E p stats w3) as [[[]|e] w4]; cbn;
    [|eexists; split; reflexivity].
  destruct (py_slice2 stats) as [two|e]; cbn; [|eexists; split; reflexivity].
  destruct (json_dumps_indent two) as [text|e]; cbn; eexists; split; reflexivity.
Qed.

Lemma app_two_neq {A : Type} (l : list A) (a b : A) : l <> (l ++ [a; b])%list.
Proof.
  intro H. apply (f_equal (@List.length A)) in H.
  rewrite length_app in H. cbn in H. lia.
Qed.

(** Property X15.  The two entry points agree on what a failed fetch is:
    [main] prints "Fetching NBA Stats..." and then "Failed to fetch stats",
    and nothing else, exactly when [lambda_handler] in the same world
    answers 500 "Failed to fetch NBA stats". *)
Theorem main_reports_fetch_failure (event context : pyval) (c : console) :
  stdout (snd (main py_str E json_dumps_indent c))
  = (stdout c ++ ["Fetching NBA Stats..."; "Failed to fetch stats"])%list
  <->
  fst (lambda_handler py_str E event context (the_world c))
  = Ret {| statusCode := 500; body := json_dumps "Failed to fetch NBA stats" |}.
Proof.
  rewrite lambda_handler_stages.
  unfold main, c_try, c_bind, in_world, print, logging_error, c_lift.
  destruct (new_NBAStatsPipeline E (the_world c)) as [[p|e] w1]; cbn.
  2:{ split; intro H; [now apply app_two_neq in H|].
      injection H as H. vm_compute in H. discriminate. }
  destruct (setup_dynamodb_table E p w1) as [[t|e] w2]; cbn.
  2:{ split; intro H; [now apply app_two_neq in H|].
      injection H as H. vm_compute in H. discriminate. }
  destruct (fetch_player_stats E p "2024" w2) as [[stats|e] w3]; cbn.
  2:{ split; intro H.
      - apply app_inv_head in H. discriminate.
      - injection H as H. vm_compute in H. discriminate. }
  destruct (truthy stats); cbn.
  2:{ rewrite <- app_assoc. split; reflexivity. }
  destruct (store_team_stats py_str E p stats w3) as [[[]|e] w4]; cbn.
  2:{ split; intro H.
      - apply app_inv_head in H. discriminate.
      - injection H as H. vm_compute in H. discriminate. }
  split; [|discriminate].
  destruct (py_slice2 stats) as [two|e]; cbn;
    [destruct (json_dumps_indent two) as [text|e]; cbn|];
    rewrite <- ?app_assoc; intro H; apply app_inv_head in H; discriminate.
Qed.
End MainFacts.

(** ** The store never sees a float under [Stats] *)

Section StatsInvariant.
Variable py_str : pyval -> string.
Variable E : env.

Lemma forallb_firstn {A : Type} (f : A -> bool) (k : nat) :
  forall l, forallb f l = true -> forallb f (firstn k l) = true.
Proof.
  induction k as [|k IH]; intros [|x l] H; try reflexivity.
  cbn in H |- *. apply andb_prop in H as [H1 H2]. now rewrite H1, IH.
Qed.

Lemma each_stored_stats (timestamp : string) (teams : list pyval) :
  forall reading items,
    each_stored py_str E timestamp reading teams items ->
    forallb json_shaped teams = true ->
    Forall (fun item => exists stats, field "Stats" item = Some stats /\
                                      has_float stats = false) items.
Proof.
  induction teams as [|team rest IH]; intros reading [|item items] H Hj;
    try contradiction; constructor.
  - cbn in Hj. apply andb_prop in Hj as [Hj _].
    destruct H as [Hs _]. destruct Hs as (_ & _ & _ & _ & _ & _ & Hstats & _).
    exact (Hstats Hj).
  - cbn in Hj. apply andb_prop in Hj as [_ Hj].
    destruct H as [_ H]. exact (IH _ _ H Hj).
Qed.

(** Property X16.  For records as [json] gives them (scalars, lists and
    string-keyed dicts), every item [store_team_stats] hands to the store,
    in a batch that completes or in one that fails part-way, has a [Stats]
    entry that holds no float: each figure that was a float went in as the
    decimal of its string. *)
Theorem store_team_stats_stats_without_float (self : NBAStatsPipeline)
    (teams : list pyval) (w : world) :
  forallb json_shaped teams = true ->
  exists items,
    submitted (snd (store_team_stats py_str E self (PList teams) w))
    = (submitted w ++ items)%list /\
    Forall (fun item => exists stats, field "Stats" item = Some stats /\
                                      has_float stats = false) items.
Proof.
  intro Hj.
  destruct (store_team_stats py_str E self (PList teams) w) as [r w'] eqn:Hrun.
  destruct (store_team_stats_outcome _ _ _ _ _ _ _ Hrun)
    as (_ & items & Hsub & k & _ & Heach & _).
  exists items. split; [exact Hsub|].
  cbn [py_iter] in Heach.
  exact (each_stored_stats _ _ _ _ Heach (forallb_firstn _ k _ Hj)).
Qed.
End StatsInvariant.

(** The Celtics record: its three float figures are stored as decimals. *)
Lemma store_team_stats_stats_without_float_witness :
  exists items,
    submitted (snd (store_team_stats sample_str (sample_env 200 (Ret PNone))
                      sample_pipeline (PList [celtics]) new_world))
    = (submitted new_world ++ items)%list /\
    Forall (fun item => exists stats, field "Stats" item = Some stats /\
                                      has_float stats = false) items.
Proof.
  exact (store_team_stats_stats_without_float sample_str (sample_env 200 (Ret PNone))
           sample_pipeline [celtics] new_world eq_refl).
Defined.

(** The successful run on the Celtics record handed over an item. *)
Lemma lambda_handler_success_wrote_witness :
  (List.length (submitted new_world)
   < List.length (submitted (snd (lambda_handler sample_str
                                     (sample_env 200 (Ret (PList [celtics])))
                                     PNone PNone new_world))))%nat.
Proof.
  refine (lambda_handler_success_wrote sample_str
            (sample_env 200 (Ret (PList [celtics]))) PNone PNone new_world _ _ _ _);
    [lazy; reflexivity | reflexivity].
Defined.
